(** * virt-lightning: the orchestration core of [virt_lightning.py]

    A shallow embedding of the parts of [LibvirtHypervisor] and
    [LibvirtDomain] that decide the address allocator, the layered
    configuration merge, the identity validators, the network
    reconciliation, the disk attachment and the config-drive network
    document, followed by the properties established about them.

    Conventions.
    - A Python [str] is a [string]; its characters are the code points
      below 256.
    - An [IPv4Address] is the integer [int(address)], kept in [Z].
    - A method that mutates [self] takes the object and returns the new
      object next to its result; a call that can raise returns a [result].
    - What the program takes from outside ([ipaddress] parsing, [uuid4],
      [getuser], the templates of [templates.py], the distro files) is a
      variable of the section that uses it. *)

From Stdlib Require Import ZArith Lia Ascii String.
From stdpp Require Import base option list strings gmap fin_maps pretty sorting.

Local Open Scope string_scope.
Local Open Scope Z_scope.

(** ** Python values, exceptions *)

Inductive exn :=
  | ValueError
  | TypeError
  | AttributeError
  | IndexError
  | KeyError
  | Exception (msg : string) (arg : string).

Inductive result (A : Type) :=
  | Return (a : A)
  | Raise (e : exn).
Arguments Return {A} a.
Arguments Raise {A} e.

Definition bind {A B} (r : result A) (k : A -> result B) : result B :=
  match r with
  | Return a => k a
  | Raise e => Raise e
  end.

Notation "x <- r ;; k" := (bind r (fun x => k))
  (at level 100, r at next level, right associativity).

Definition returns {A} (r : result A) : bool :=
  match r with Return _ => true | Raise _ => false end.

(** The values a YAML document or a [dict] literal of the program holds.
    A nested [dict] keeps its items in insertion order. *)
#[local] Set Warnings "-register-all".
Inductive pyval :=
  | PNone
  | PBool (b : bool)
  | PInt (z : Z)
  | PStr (s : string)
  | PList (l : list pyval)
  | PDict (items : list (string * pyval)).
#[local] Set Warnings "+register-all".

(** [bool(v)], the test behind [if v:]. *)
Definition truthy (v : pyval) : bool :=
  match v with
  | PNone => false
  | PBool b => b
  | PInt z => negb (z =? 0)
  | PStr s => negb (String.eqb s "")
  | PList l => match l with [] => false | _ => true end
  | PDict items => match items with [] => false | _ => true end
  end.

(** [str(n)] for a non-negative [int]. *)
Definition str_of_Z (z : Z) : string := pretty z.
Definition str_of_nat (n : nat) : string := pretty n.

(** ** The [ipaddress] values the program handles *)

Module ipaddress.

(** [IPv4Address._ip] or [IPv6Address._ip], tagged by the version. *)
Inductive IPAddress :=
  | IPv4Address (n : Z)
  | IPv6Address (n : Z).

#[global] Instance IPAddress_eq_dec : EqDecision IPAddress.
Proof. solve_decision. Defined.

Record IPv4Network := {
  network_address : Z;
  net_prefixlen : Z;
}.

(** [IPv4Interface("a.b.c.d/p")]: the address and the prefix length. *)
Record IPv4Interface := {
  ip : Z;
  prefixlen : Z;
}.

Record IPv6Interface := {
  ip6 : Z;
  prefixlen6 : Z;
}.

(** What [ipaddress.ip_interface] returns. *)
Inductive Interface :=
  | V4 (i : IPv4Interface)
  | V6 (i : IPv6Interface).

Definition interface_ip (i : Interface) : IPAddress :=
  match i with
  | V4 i => IPv4Address (ip i)
  | V6 i => IPv6Address (ip6 i)
  end.

(** The integer of the netmask of a prefix length: [p] leading ones. *)
Definition netmask_of (p : Z) : Z := Z.shiftl (Z.ones p) (32 - p).

Definition netmask (n : IPv4Network) : Z := netmask_of (net_prefixlen n).

(** [interface.network]: the address masked, and the same prefix. *)
Definition interface_network (i : IPv4Interface) : IPv4Network :=
  {| network_address := Z.land (ip i) (netmask_of (prefixlen i));
     net_prefixlen := prefixlen i |}.

Definition num_addresses (n : IPv4Network) : Z := 2 ^ (32 - net_prefixlen n).

(** [IPv4Network.__iter__]: every address from the network address to
    the broadcast address, both included, in ascending order. *)
Definition iter (n : IPv4Network) : list Z :=
  seqZ (network_address n) (num_addresses n).

(** [network[k]]. *)
Definition getitem (n : IPv4Network) (k : Z) : Z := network_address n + k.

(** [_BaseNetwork.__lt__] and [__eq__]. *)
Definition network_lt (a b : IPv4Network) : bool :=
  if negb (network_address a =? network_address b)
  then network_address a <? network_address b
  else if negb (netmask a =? netmask b)
  then netmask a <? netmask b
  else false.

Definition network_eq (a b : IPv4Network) : bool :=
  (network_address a =? network_address b) && (netmask a =? netmask b).

(** [IPv4Interface.__lt__]. *)
Definition interface_lt (a b : IPv4Interface) : bool :=
  let address_less := ip a <? ip b in
  network_lt (interface_network a) (interface_network b)
  || (network_eq (interface_network a) (interface_network b) && address_less).

(** [__ge__] as [functools.total_ordering] derives it from [__lt__]. *)
Definition interface_ge (a b : IPv4Interface) : bool :=
  negb (interface_lt a b).

(** The four octets of the dotted form, most significant first. *)
Definition octets (a : Z) : list Z :=
  [Z.land (Z.shiftr a 24) 255; Z.land (Z.shiftr a 16) 255;
   Z.land (Z.shiftr a 8) 255; Z.land a 255].

Fixpoint join (sep : string) (l : list string) : string :=
  match l with
  | [] => ""
  | [x] => x
  | x :: rest => x +:+ sep +:+ join sep rest
  end.

(** [address.exploded], which is [str(address)] for IPv4. *)
Definition exploded (a : Z) : string := join "." (str_of_Z <$> octets a).

(** [str(interface)]: ["a.b.c.d/p"]. *)
Definition str_of_interface (i : IPv4Interface) : string :=
  exploded (ip i) +:+ "/" +:+ str_of_Z (prefixlen i).

(** [a.b.c.d] as an integer. *)
Definition addr (a b c d : Z) : Z :=
  Z.lor (Z.shiftl a 24) (Z.lor (Z.shiftl b 16) (Z.lor (Z.shiftl c 8) d)).

End ipaddress.
Import ipaddress.

Example exploded_192_0_2_5 : exploded (addr 192 0 2 5) = "192.0.2.5".
Proof. vm_compute. reflexivity. Qed.

(** ** The objects the hypervisor holds *)

(** A disk element as [attachDisk] fills it in. *)
Record DiskDevice := {
  disk_device : string;
  driver_type : string;
  source_file : string;
  target_dev : string;
  target_bus : string;
}.

(** A defined domain: its name, the [vl] metadata elements (key to the
    [name] attribute), the MAC addresses of [./devices/interface/mac] in
    attach order, and the disks attached so far. *)
Record virDomain := {
  vir_name : string;
  vir_metadata : gmap string string;
  vir_macs : list string;
  vir_disks : list DiskDevice;
}.

(** [<host ip=...><hostname>...</hostname>...</host>] under [./dns]. *)
Record DnsHost := {
  dns_ip : option string;
  hostnames : list string;
}.

(** [<host mac=... name=... ip=.../>] under [./ip/dhcp]. *)
Record DhcpHost := {
  dhcp_mac : option string;
  dhcp_name : option string;
  dhcp_ip : option string;
}.

#[global] Instance DnsHost_eq_dec : EqDecision DnsHost.
Proof. solve_decision. Defined.
#[global] Instance DhcpHost_eq_dec : EqDecision DhcpHost.
Proof. solve_decision. Defined.

(** The live definition of the managed network: the two host tables that
    [virNetwork.update] edits. *)
Record virNetwork := {
  dns_hosts : list DnsHost;
  dhcp_hosts : list DhcpHost;
}.

(** The hypervisor's side of [virNetwork.update], as the capability
    surface of the design has it: atomic add and delete updates of a
    host table. [VIR_NETWORK_UPDATE_COMMAND_ADD_FIRST] puts the element
    in front; [VIR_NETWORK_UPDATE_COMMAND_DELETE] takes out the first
    entry equal to the element given, and the hypervisor refuses when
    there is none. *)
Fixpoint delete_first `{EqDecision A} (x : A) (l : list A) : option (list A) :=
  match l with
  | [] => None
  | y :: rest =>
      if decide (x = y) then Some rest
      else cons y <$> delete_first x rest
  end.

Inductive update_command :=
  | VIR_NETWORK_UPDATE_COMMAND_ADD_FIRST
  | VIR_NETWORK_UPDATE_COMMAND_DELETE.

Definition libvirtError : exn := Exception "libvirtError" "".

Definition update_table `{EqDecision A}
    (cmd : update_command) (x : A) (l : list A) : result (list A) :=
  match cmd with
  | VIR_NETWORK_UPDATE_COMMAND_ADD_FIRST => Return (x :: l)
  | VIR_NETWORK_UPDATE_COMMAND_DELETE =>
      match delete_first x l with
      | Some l' => Return l'
      | None => Raise libvirtError
      end
  end.

(** [network_obj.update(cmd, VIR_NETWORK_SECTION_DNS_HOST, 0, xml, ...)] *)
Definition update_dns_host (cmd : update_command) (x : DnsHost)
    (n : virNetwork) : result virNetwork :=
  t <- update_table cmd x (dns_hosts n) ;;
  Return {| dns_hosts := t; dhcp_hosts := dhcp_hosts n |}.

(** [network_obj.update(cmd, VIR_NETWORK_SECTION_IP_DHCP_HOST, 0, xml, ...)] *)
Definition update_dhcp_host (cmd : update_command) (x : DhcpHost)
    (n : virNetwork) : result virNetwork :=
  t <- update_table cmd x (dhcp_hosts n) ;;
  Return {| dns_hosts := dns_hosts n; dhcp_hosts := t |}.

(** ** [LibvirtDomain] *)

Record LibvirtDomain := {
  dom : virDomain;
  user_data : gmap string pyval;
  _ssh_key : option string;
  default_nic_model : option string;
  additional_ipv4 : list (option string);
  (** [None] until [getNextBlckDevice] creates the attribute. *)
  blockdev : option (list ascii);
}.

(** [LibvirtDomain.__init__] *)
Definition LibvirtDomain_init (d : virDomain) : LibvirtDomain :=
  {| dom := d;
     user_data :=
       <["resize_rootfs" := PBool true]>
       (<["disable_root" := PInt 0]>
       (<["bootcmd" := PList []]>
       (<["runcmd" := PList []]> ∅)));
     _ssh_key := None;
     default_nic_model := None;
     additional_ipv4 := [];
     blockdev := None |}.

Definition set_dom (d : LibvirtDomain) (v : virDomain) : LibvirtDomain :=
  {| dom := v; user_data := user_data d; _ssh_key := _ssh_key d;
     default_nic_model := default_nic_model d;
     additional_ipv4 := additional_ipv4 d; blockdev := blockdev d |}.

Definition set_user_data (d : LibvirtDomain) (u : gmap string pyval)
    : LibvirtDomain :=
  {| dom := dom d; user_data := u; _ssh_key := _ssh_key d;
     default_nic_model := default_nic_model d;
     additional_ipv4 := additional_ipv4 d; blockdev := blockdev d |}.

Definition set_blockdev (d : LibvirtDomain) (b : list ascii) : LibvirtDomain :=
  {| dom := dom d; user_data := user_data d; _ssh_key := _ssh_key d;
     default_nic_model := default_nic_model d;
     additional_ipv4 := additional_ipv4 d; blockdev := Some b |}.

(** [get_metadata]: the [name] attribute stored under [k], [None] when the
    domain has no such element. The map [vir_metadata] holds each
    attribute as the parse of the element reads it. *)
Definition get_metadata (d : LibvirtDomain) (k : string) : option string :=
  vir_metadata (dom d) !! k.

(** [record_metadata]: [<k name='v' />] stored under [k]. The value is
    written between the quotes as it is, so what is read back is [v]
    itself only for a value that the element carries unchanged (see
    [xml_safe]); the statements below read back such values only. *)
Definition record_metadata (d : LibvirtDomain) (k v : string) : LibvirtDomain :=
  set_dom d
    {| vir_name := vir_name (dom d);
       vir_metadata := <[k := v]> (vir_metadata (dom d));
       vir_macs := vir_macs (dom d);
       vir_disks := vir_disks (dom d) |}.

Definition name (d : LibvirtDomain) : string := vir_name (dom d).
Definition mac_addresses (d : LibvirtDomain) : list string := vir_macs (dom d).
Definition distro (d : LibvirtDomain) : option string := get_metadata d "distro".
Definition fqdn (d : LibvirtDomain) : option string := get_metadata d "fqdn".
Definition username (d : LibvirtDomain) : option string := get_metadata d "username".
Definition ssh_key (d : LibvirtDomain) : option string := _ssh_key d.

(** [bool(s)] for an optional string: [None] and [""] are falsy. *)
Definition str_truthy (o : option string) : bool :=
  match o with
  | Some s => negb (String.eqb s "")
  | None => false
  end.

Definition pyval_of_opt (o : option string) : pyval :=
  match o with Some s => PStr s | None => PNone end.

(** ** The fragment of [re] the two validators use *)

Module re.

(** An item of a bracketed set: one character or a range. *)
Inductive item :=
  | Lit (c : ascii)
  | Range (lo hi : ascii).

(** The elements of a pattern, matched one after the other:
    [[...]], [[...]{lo,hi}] ([+] is [{1,}]), [^] and [$]. *)
Inductive elt :=
  | In (set : list item)
  | Repeat (set : list item) (lo : nat) (hi : option nat)
  | Bol
  | Eol.

Definition pattern := list elt.

Definition code (c : ascii) : N := N_of_ascii c.

Definition item_match (c : ascii) (i : item) : bool :=
  match i with
  | Lit x => (code c =? code x)%N
  | Range lo hi => (code lo <=? code c)%N && (code c <=? code hi)%N
  end.

(** Case folding of the ASCII letters, the only cased characters the
    sets of this program contain. *)
Definition lower (c : ascii) : ascii :=
  if (65 <=? code c)%N && (code c <=? 90)%N
  then ascii_of_N (code c + 32) else c.

Definition upper (c : ascii) : ascii :=
  if (97 <=? code c)%N && (code c <=? 122)%N
  then ascii_of_N (code c - 32) else c.

(** Membership of a set, under [re.IGNORECASE] when [ignorecase]. The
    characters of a [string] are the code points below 256; the letters
    above them that [re] also folds onto [a-z] (U+0130, U+0131, U+017F,
    U+212A) lie outside this type. *)
Definition in_set (ignorecase : bool) (set : list item) (c : ascii) : bool :=
  existsb (item_match c) set
  || (ignorecase
      && (existsb (item_match (lower c)) set
          || existsb (item_match (upper c)) set)).

Definition newline : ascii := "010"%char.

(** [$] without [re.MULTILINE]: the end of the string, or just before
    a newline that ends it. *)
Definition at_end (s : string) : bool :=
  match s with
  | EmptyString => true
  | String c EmptyString => (code c =? code newline)%N
  | _ => false
  end.

Definition dec_hi (hi : option nat) : option nat := pred <$> hi.

Definition hi_allows (hi : option nat) : bool :=
  match hi with Some O => false | _ => true end.

(** A bounded repetition followed by the continuation [k]: one more
    character of the set first, then the continuation where it stands
    (backtracking). [start] tells whether the position is 0. *)
Fixpoint match_repeat (k : bool -> string -> bool) (ic : bool)
    (set : list item) (lo : nat) (hi : option nat)
    (start : bool) (s : string) : bool :=
  match s with
  | String c s' =>
      in_set ic set c && hi_allows hi
      && match_repeat k ic set (pred lo) (dec_hi hi) false s'
  | EmptyString => false
  end
  || match lo with O => k start s | S _ => false end.

Fixpoint match_here (ic : bool) (p : pattern) : bool -> string -> bool :=
  match p with
  | [] => fun _ _ => true
  | e :: p' =>
      let k := match_here ic p' in
      fun start s =>
        match e with
        | In set =>
            match s with
            | String c s' => in_set ic set c && k false s'
            | EmptyString => false
            end
        | Repeat set lo hi => match_repeat k ic set lo hi start s
        | Bol => start && k start s
        | Eol => at_end s && k start s
        end
  end.

(** [bool(re.match(p, s))]: a match that starts at position 0. *)
Definition match_ (ignorecase : bool) (p : pattern) (s : string) : bool :=
  match_here ignorecase p true s.

End re.

(** ["[a-z_][a-z0-9_-]{1,32}$"] *)
Definition username_pattern : re.pattern :=
  [re.In [re.Range "a" "z"; re.Lit "_"];
   re.Repeat [re.Range "a" "z"; re.Range "0" "9"; re.Lit "_"; re.Lit "-"]
     1 (Some 32%nat);
   re.Eol].

(** [r"^[\.a-z0-9]+$"], compiled with [re.IGNORECASE] *)
Definition fqdn_validate : re.pattern :=
  [re.Bol;
   re.Repeat [re.Lit "."; re.Range "a" "z"; re.Range "0" "9"] 1 None;
   re.Eol].

(** ** The setters and methods of [LibvirtDomain] *)

(** [username.setter] *)
Definition set_username (d : LibvirtDomain) (username : string)
    : result LibvirtDomain :=
  if negb (re.match_ false username_pattern username)
  then Raise (Exception "Invalid username: " username)
  else
    let d1 :=
      set_user_data d
        (<["users" :=
            PList [PDict [("name", PStr username);
                          ("gecos", PStr "virt-bootstrap user");
                          ("sudo", PStr "ALL=(ALL) NOPASSWD:ALL");
                          ("ssh_authorized_keys",
                           PList [pyval_of_opt (ssh_key d)])]]]>
         (user_data d)) in
    Return (record_metadata d1 "username" username).

(** [fqdn.setter]; [value] is a string or [None]. The rejecting branch
    logs and returns. *)
Definition set_fqdn (d : LibvirtDomain) (value : option string)
    : result LibvirtDomain :=
  match value with
  | None => Return d
  | Some v =>
      if negb (str_truthy value) || negb (re.match_ true fqdn_validate v)
      then Return d
      else
        let d1 := set_user_data d (<["fqdn" := PStr v]> (user_data d)) in
        Return (record_metadata d1 "fqdn" v)
  end.

(** [root_password.setter] *)
Definition set_root_password (d : LibvirtDomain) (value : string)
    : LibvirtDomain :=
  let u := <["disable_root" := PBool false]> (user_data d) in
  let u := <["password" := PStr value]> u in
  let u := <["chpasswd" :=
              PDict [("list", PStr ("root:" +:+ value +:+ String re.newline ""));
                     ("expire", PBool false)]]> u in
  let u := <["ssh_pwauth" := PBool true]> u in
  record_metadata (set_user_data d u) "root_password" value.

(** [python_interpreter.setter], [distro.setter], [context.setter] *)
Definition set_python_interpreter (d : LibvirtDomain) (value : string) :=
  record_metadata d "python_interpreter" value.
Definition set_distro (d : LibvirtDomain) (value : string) :=
  record_metadata d "distro" value.
Definition set_context (d : LibvirtDomain) (value : string) :=
  record_metadata d "context" value.

(** [groups.setter]: [",".join(value)] *)
Definition set_groups (d : LibvirtDomain) (value : list string) :=
  record_metadata d "groups" (join "," value).

(** [ipv4.setter]: the interface is stored as [str(value)]. *)
Definition set_ipv4 (d : LibvirtDomain) (value : IPv4Interface) :=
  record_metadata d "ipv4" (str_of_interface value).

Definition ascii_lowercase : string := "abcdefghijklmnopqrstuvwxyz".

(** [list.pop()]: the last element, [IndexError] on an empty list. *)
Definition pop {A} (l : list A) : result (A * list A) :=
  match last l with
  | Some x => Return (x, removelast l)
  | None => Raise IndexError
  end.

(** [getNextBlckDevice] *)
Definition getNextBlckDevice (d : LibvirtDomain)
    : result (string * LibvirtDomain) :=
  let d1 :=
    match blockdev d with
    | None => set_blockdev d (reverse (list_ascii_of_string ascii_lowercase))
    | Some _ => d
    end in
  r <- pop (default [] (blockdev d1)) ;;
  Return ("vd" +:+ String (fst r) "", set_blockdev d1 (snd r)).

(** [dom.attachDeviceFlags] with a disk element. *)
Definition attach_disk_device (v : virDomain) (x : DiskDevice) : virDomain :=
  {| vir_name := vir_name v; vir_metadata := vir_metadata v;
     vir_macs := vir_macs v; vir_disks := vir_disks v ++ [x] |}.

(** The bus [attachDisk] chooses; [self.distro] is [None] when the domain
    has no such metadata, and [None.startswith] raises. *)
Definition disk_bus (d : LibvirtDomain) (device : string) : result string :=
  if String.eqb device "cdrom" then Return "ide"
  else
    match distro d with
    | None => Raise AttributeError
    | Some ds =>
        if String.prefix "esxi" ds then Return "sata" else Return "virtio"
    end.

(** [attachDisk(volume, device, disk_type)]; [volume] stands for
    [volume.path()]. *)
Definition attachDisk (d : LibvirtDomain) (volume device disk_type : string)
    : result (string * LibvirtDomain) :=
  bus <- disk_bus d device ;;
  r <- getNextBlckDevice d ;;
  let device_name := fst r in
  let d1 := snd r in
  let x := {| disk_device := device; driver_type := disk_type;
              source_file := volume; target_dev := device_name;
              target_bus := bus |} in
  Return (device_name, set_dom d1 (attach_disk_device (dom d1) x)).

(** [add_root_disk]: the defaults [device="disk"], [disk_type="qcow2"]. *)
Definition add_root_disk (d : LibvirtDomain) (root_disk_path : string)
    : result LibvirtDomain :=
  r <- attachDisk d root_disk_path "disk" "qcow2" ;;
  Return (snd r).

Example username_alice : returns (set_username (LibvirtDomain_init
  {| vir_name := "vm"; vir_metadata := ∅; vir_macs := []; vir_disks := [] |})
  "alice-2") = true.
Proof. vm_compute. reflexivity. Qed.

(** ** [LibvirtHypervisor] *)

(** The session after [init_network]: the domains the connection lists,
    the allocator cursor, the live network definition, and the gateway,
    DNS address and network range that [init_network] derives. *)
Record LibvirtHypervisor := {
  conn_domains : list virDomain;
  _last_free_ipv4 : option IPv4Interface;
  network_obj : virNetwork;
  gateway : IPv4Interface;
  dns : IPv4Interface;
  network : IPv4Network;
}.

Definition set_last_free_ipv4 (h : LibvirtHypervisor) (i : IPv4Interface)
    : LibvirtHypervisor :=
  {| conn_domains := conn_domains h; _last_free_ipv4 := Some i;
     network_obj := network_obj h; gateway := gateway h; dns := dns h;
     network := network h |}.

Definition set_network_obj (h : LibvirtHypervisor) (n : virNetwork)
    : LibvirtHypervisor :=
  {| conn_domains := conn_domains h; _last_free_ipv4 := _last_free_ipv4 h;
     network_obj := n; gateway := gateway h; dns := dns h;
     network := network h |}.

(** [list_domains] *)
Definition list_domains (h : LibvirtHypervisor) : list LibvirtDomain :=
  LibvirtDomain_init <$> conn_domains h.

(** What [init_network] leaves in a fresh session whose network element
    reads [<ip address=a netmask=/p>]. *)
Definition init_network (doms : list virDomain) (n : virNetwork)
    (address prefix : Z) : LibvirtHypervisor :=
  let gw := {| ip := address; prefixlen := prefix |} in
  {| conn_domains := doms; _last_free_ipv4 := None; network_obj := n;
     gateway := gw; dns := gw; network := interface_network gw |}.

Fixpoint str_contains (c : ascii) (s : string) : bool :=
  match s with
  | EmptyString => false
  | String x s' => Ascii.eqb x c || str_contains c s'
  end.

(** The loop of [generate_openstack_network_config] over
    [enumerate(domain.mac_addresses)]. *)
Definition links_of (macs : list string) : list pyval :=
  imap (fun i addr =>
          PDict [("id", PStr ("interface" +:+ str_of_nat i));
                 ("type", PStr "phy");
                 ("ethernet_mac_address", PStr addr)]) macs.

Section Hypervisor.

(** The constructors of [ipaddress] applied to a string ([None] stands
    for [ValueError]), the identifier [uuid.uuid4()] draws for the entry
    of a given index, the login of the invoking user, the two host
    templates of [templates.py], and the distro files under
    [upstream/] ([None]: no such file; [Some None]: a file that loads
    to nothing). *)
Variable IPv4Interface_of_str : string -> option IPv4Interface.
Variable IPv6Interface_of_str : string -> option IPv6Interface.
Variable uuid4 : nat -> string.
Variable getuser : string.
Variable NETWORK_HOST_ENTRY : DnsHost.
Variable NETWORK_DHCP_ENTRY : DhcpHost.
Variable upstream_yaml : option string -> option (option (gmap string pyval)).

(** [ipaddress.ip_interface] *)
Definition ip_interface (s : string) : result Interface :=
  match IPv4Interface_of_str s with
  | Some i => Return (V4 i)
  | None =>
      match IPv6Interface_of_str s with
      | Some i => Return (V6 i)
      | None => Raise ValueError
      end
  end.

(** The [ipv4] property of a domain. *)
Definition ipv4 (d : LibvirtDomain) : result (option IPv4Interface) :=
  match get_metadata d "ipv4" with
  | Some s =>
      if str_truthy (Some s) then
        match IPv4Interface_of_str s with
        | Some i => Return (Some i)
        | None => Raise ValueError
        end
      else Return None
  | None => Return None
  end.

(** *** [get_free_ipv4] *)

(** The first loop: the interfaces recorded by the defined domains,
    appended to [used_ips]. *)
Fixpoint collect_used_ips (used_ips : list Interface)
    (doms : list LibvirtDomain) : result (list Interface) :=
  match doms with
  | [] => Return used_ips
  | d :: rest =>
      let ipstr := get_metadata d "ipv4" in
      if negb (str_truthy ipstr) then collect_used_ips used_ips rest
      else
        interface <- ip_interface (default "" ipstr) ;;
        collect_used_ips (used_ips ++ [interface]) rest
  end.

(** The second loop, over the addresses of [self.network];
    [IPv4Interface("{ip}/24")] is the address with prefix length 24. *)
Fixpoint scan_network (last_free_ipv4 : option IPv4Interface)
    (used_ips : list Interface) (ips : list Z) : option IPv4Interface :=
  match ips with
  | [] => None
  | a :: rest =>
      let interface := {| ip := a; prefixlen := 24 |} in
      if nth 3 (octets (ip interface)) 0 <? 5
      then scan_network last_free_ipv4 used_ips rest
      else if match last_free_ipv4 with
              | Some l => interface_ge l interface
              | None => false
              end
      then scan_network last_free_ipv4 used_ips rest
      else if negb (bool_decide
                      (IPv4Address (ip interface) ∈ interface_ip <$> used_ips))
      then Some interface
      else scan_network last_free_ipv4 used_ips rest
  end.

Definition get_free_ipv4 (h : LibvirtHypervisor)
    : result (option IPv4Interface * LibvirtHypervisor) :=
  used_ips <- collect_used_ips [V4 (gateway h)] (list_domains h) ;;
  match scan_network (_last_free_ipv4 h) used_ips (iter (network h)) with
  | Some interface => Return (Some interface, set_last_free_ipv4 h interface)
  | None => Return (None, h)
  end.

(** *** [configure_domain]: the merge of the three layers *)

Definition default_config : gmap string pyval :=
  <["groups" := PList []]>
  (<["memory" := PInt 768]>
  (<["python_interpreter" := PStr "/usr/bin/python3"]>
  (<["root_password" := PStr "root"]>
  (<["username" := PStr getuser]>
  (<["vcpus" := PInt 1]>
  (<["default_nic_model" := PStr "virtio"]>
  (<["bootcmd" := PList []]> ∅))))))).

(** [get_distro_configuration] *)
Definition get_distro_configuration (distro : option string)
    : gmap string pyval :=
  match upstream_yaml distro with
  | None => ∅
  | Some loaded => default ∅ loaded
  end.

(** [for k, v in layer.items(): if v: config[k] = v] *)
Definition merge_layer (layer config : gmap string pyval)
    : gmap string pyval :=
  map_fold (fun k v config => if truthy v then <[k := v]> config else config)
    config layer.

(** The [config] of [configure_domain] after its two loops; the
    statements that follow hand [config[...]] to the domain's setters. *)
Definition merged_config (domain : LibvirtDomain)
    (user_config : gmap string pyval) : gmap string pyval :=
  merge_layer user_config
    (merge_layer (get_distro_configuration (distro domain)) default_config).

(** *** The host tables of the managed network *)

(** One removal pass: the hosts found in the descriptor read before the
    pass, each deleted from the live definition unless [skip] holds. *)
Fixpoint delete_hosts {A} (skip : A -> bool)
    (delete : A -> virNetwork -> result virNetwork)
    (found : list A) (n : virNetwork) : result virNetwork :=
  match found with
  | [] => Return n
  | host :: rest =>
      if skip host then delete_hosts skip delete rest n
      else
        n1 <- delete host n ;;
        delete_hosts skip delete rest n1
  end.

Definition has_attr {A} (attr : A -> option string) (x : A) : bool :=
  bool_decide (is_Some (attr x)).

(** [remove_domain_from_network] *)
Definition remove_domain_from_network (h : LibvirtHypervisor)
    (domain : LibvirtDomain) : result LibvirtHypervisor :=
  let root := network_obj h in
  i <- ipv4 domain ;;
  match i with
  | None => Return h
  | Some i4 =>
      let ipstr := exploded (ip i4) in
      n1 <- delete_hosts
              (fun host => negb (bool_decide (dns_ip host = Some ipstr)))
              (update_dns_host VIR_NETWORK_UPDATE_COMMAND_DELETE)
              (filter (fun x => has_attr dns_ip x) (dns_hosts root))
              (network_obj h) ;;
      let root := n1 in
      n2 <- delete_hosts
              (fun host => negb (bool_decide (dhcp_ip host = Some ipstr)))
              (update_dhcp_host VIR_NETWORK_UPDATE_COMMAND_DELETE)
              (filter (fun x => has_attr dhcp_ip x) (dhcp_hosts root))
              n1 ;;
      let root := n2 in
      n3 <- delete_hosts
              (fun host =>
                 negb (bool_decide
                         (default "" (dhcp_mac host) ∈ mac_addresses domain)))
              (update_dhcp_host VIR_NETWORK_UPDATE_COMMAND_DELETE)
              (filter (fun x => has_attr dhcp_mac x) (dhcp_hosts root))
              n2 ;;
      Return (set_network_obj h n3)
  end.

(** [set_dns_entry]; [ipv4] is [None] when the domain has no address,
    and [None.ip] raises. *)
Definition set_dns_entry (h : LibvirtHypervisor)
    (ipv4 : option IPv4Interface) (names : list (option string))
    : result LibvirtHypervisor :=
  let children :=
    omap (fun name => if str_truthy name then name else None) names in
  match ipv4 with
  | None => Raise AttributeError
  | Some i4 =>
      let root := {| dns_ip := Some (exploded (ip i4));
                     hostnames := hostnames NETWORK_HOST_ENTRY ++ children |} in
      n <- update_dns_host VIR_NETWORK_UPDATE_COMMAND_ADD_FIRST root
             (network_obj h) ;;
      Return (set_network_obj h n)
  end.

(** [set_dhcp_entry] *)
Definition set_dhcp_entry (h : LibvirtHypervisor)
    (ipv4 : option IPv4Interface) (mac : string)
    : result LibvirtHypervisor :=
  match ipv4 with
  | None => Raise AttributeError
  | Some i4 =>
      let root := {| dhcp_mac := Some mac;
                     dhcp_name := dhcp_name NETWORK_DHCP_ENTRY;
                     dhcp_ip := Some (exploded (ip i4)) |} in
      n <- update_dhcp_host VIR_NETWORK_UPDATE_COMMAND_ADD_FIRST root
             (network_obj h) ;;
      Return (set_network_obj h n)
  end.

(** [add_domain_to_network] *)
Definition add_domain_to_network (h : LibvirtHypervisor)
    (domain : LibvirtDomain) : result LibvirtHypervisor :=
  i <- ipv4 domain ;;
  h1 <- set_dns_entry h i [Some (name domain); fqdn domain] ;;
  i <- ipv4 domain ;;
  mac <- match mac_addresses domain with
         | m :: _ => Return m
         | [] => Raise IndexError
         end ;;
  set_dhcp_entry h1 i mac.

(** The last two statements of [start]: the stale entries are retracted,
    then the fresh ones registered. *)
Definition start_network (h : LibvirtHypervisor) (domain : LibvirtDomain)
    : result LibvirtHypervisor :=
  h1 <- remove_domain_from_network h domain ;;
  add_domain_to_network h1 domain.

(** [start], from the point where the seed image [cloud_init_iso] has
    been prepared: it is attached as a cdrom, the domain is created,
    and the network is reconciled. *)
Definition start (h : LibvirtHypervisor) (domain : LibvirtDomain)
    (cloud_init_iso : string) : result (LibvirtHypervisor * LibvirtDomain) :=
  r <- attachDisk domain cloud_init_iso "cdrom" "raw" ;;
  h1 <- start_network h (snd r) ;;
  Return (h1, snd r).

(** *** [generate_openstack_network_config] *)

Definition dhcp_network_id : string := "da5bb487-5193-4a65-a3df-4a0055a8c0d7".

(** The loop over [enumerate(domain.additional_ipv4)], from index [i]. *)
Fixpoint additional_networks_from (i : nat) (l : list (option string))
    : result (list pyval) :=
  match l with
  | [] => Return []
  | ipv4 :: rest =>
      if negb (str_truthy ipv4) then additional_networks_from (S i) rest
      else
        let ipv4 := default "" ipv4 in
        if String.eqb ipv4 "dhcp" then
          let net := PDict [("id", PStr ("private-ipv4-" +:+ str_of_nat i));
                            ("type", PStr "ipv4_dhcp");
                            ("link", PStr ("interface" +:+ str_of_nat (i + 1)));
                            ("network_id", PStr dhcp_network_id)] in
          nets <- additional_networks_from (S i) rest ;;
          Return (net :: nets)
        else
          let ipv4 := if negb (str_contains "/" ipv4)
                      then ipv4 +:+ "/24" else ipv4 in
          match IPv4Interface_of_str ipv4 with
          | None => Raise ValueError
          | Some domain_ip =>
              let net :=
                PDict [("id", PStr ("private-ipv4-" +:+ str_of_nat i));
                       ("type", PStr "ipv4");
                       ("link", PStr ("interface" +:+ str_of_nat (i + 1)));
                       ("ip_address", PStr (exploded (ip domain_ip)));
                       ("netmask",
                        PStr (exploded (netmask_of (prefixlen domain_ip))));
                       ("routes", PList []);
                       ("network_id", PStr (uuid4 i))] in
              nets <- additional_networks_from (S i) rest ;;
              Return (net :: nets)
          end
  end.

Definition generate_openstack_network_config (h : LibvirtHypervisor)
    (domain : LibvirtDomain) : result pyval :=
  let links := links_of (mac_addresses domain) in
  additional_networks <- additional_networks_from 0 (additional_ipv4 domain) ;;
  i <- ipv4 domain ;;
  match i with
  | None => Raise AttributeError
  | Some i4 =>
      Return (PDict
        [("links", PList links);
         ("networks",
          PList (PDict
                   [("id", PStr "private-ipv4");
                    ("type", PStr "ipv4");
                    ("link", PStr "interface0");
                    ("ip_address", PStr (exploded (ip i4)));
                    ("netmask", PStr (exploded (netmask (network h))));
                    ("routes",
                     PList [PDict [("network", PStr "0.0.0.0");
                                   ("netmask", PStr "0.0.0.0");
                                   ("gateway",
                                    PStr (exploded (ip (gateway h))))]]);
                    ("network_id", PStr dhcp_network_id)]
                 :: additional_networks));
         ("services",
          PList [PDict [("type", PStr "dns");
                        ("address", PStr (exploded (ip (dns h))))]])])
  end.

End Hypervisor.

(** ** The predicates the statements use *)

Fixpoint str_forallb (f : ascii -> bool) (s : string) : bool :=
  match s with
  | EmptyString => true
  | String c s' => f c && str_forallb f s'
  end.

Definition is_lower (c : ascii) : bool :=
  (97 <=? re.code c)%N && (re.code c <=? 122)%N.
Definition is_upper (c : ascii) : bool :=
  (65 <=? re.code c)%N && (re.code c <=? 90)%N.
Definition is_digit (c : ascii) : bool :=
  (48 <=? re.code c)%N && (re.code c <=? 57)%N.
Definition is_char (x c : ascii) : bool := (re.code c =? re.code x)%N.

Fixpoint ends_with_newline (s : string) : bool :=
  match s with
  | EmptyString => false
  | String c EmptyString => is_char re.newline c
  | String _ s' => ends_with_newline s'
  end.

(** A character of a login name: a lowercase letter, a digit, an
    underscore or a hyphen. *)
Definition login_char (c : ascii) : bool :=
  is_lower c || is_digit c || is_char "_" c || is_char "-" c.

(** The login names as the pattern has them: a lowercase letter or an
    underscore, then 1 to 32 login characters. *)
Definition login_name (s : string) : bool :=
  match s with
  | EmptyString => false
  | String c r =>
      (is_lower c || is_char "_" c)
      && str_forallb login_char r
      && (1 <=? String.length r)%nat && (String.length r <=? 32)%nat
  end.

(** The login names as the design words them: login characters only,
    2 to 33 of them, the first not a digit. *)
Definition worded_login_name (s : string) : bool :=
  str_forallb login_char s
  && (2 <=? String.length s)%nat && (String.length s <=? 33)%nat
  && negb (match s with String c _ => is_digit c | EmptyString => false end).

(** The hostname characters as the design words them: letters of either
    case, digits and dots. *)
Definition hostname_char (c : ascii) : bool :=
  is_lower c || is_upper c || is_digit c || is_char "." c.

Definition hostname_chars (s : string) : bool := str_forallb hostname_char s.

(** The characters that [<k name='v' />] carries unchanged through the
    parse of the element: the printable ASCII characters other than the
    quote, the ampersand and the opening angle bracket. *)
Definition xml_safe_char (c : ascii) : bool :=
  (32 <=? re.code c)%N && (re.code c <=? 126)%N
  && negb (is_char "'" c) && negb (is_char "&" c) && negb (is_char "<" c).

Definition xml_safe (s : string) : bool := str_forallb xml_safe_char s.

(** The device names in slot order: [vda] to [vdz]. *)
Definition device_names : list string :=
  (fun c => "vd" +:+ String c "") <$> list_ascii_of_string ascii_lowercase.

(** The calls of a sequence of [attachDisk] requests, one after the
    other on the same domain; a call that raises leaves the domain as it
    was. Each request is [(volume, device, disk_type)]. *)
Fixpoint attach_all (d : LibvirtDomain) (reqs : list (string * string * string))
    : list (result string) * LibvirtDomain :=
  match reqs with
  | [] => ([], d)
  | (volume, device, disk_type) :: rest =>
      match attachDisk d volume device disk_type with
      | Return (device_name, d1) =>
          let r := attach_all d1 rest in (Return device_name :: fst r, snd r)
      | Raise e =>
          let r := attach_all d rest in (Raise e :: fst r, snd r)
      end
  end.

(** The names the calls that returned gave, in call order. *)
Definition returned_names (rs : list (result string)) : list string :=
  omap (fun r => match r with Return x => Some x | Raise _ => None end) rs.

(** The DNS entries of a network for an address, and its DHCP entries
    that name the address or one of the MAC addresses given. *)
Definition dns_entries_for (ipstr : string) (n : virNetwork) : list DnsHost :=
  filter (fun e => dns_ip e = Some ipstr) (dns_hosts n).

Definition dhcp_entries_for (ipstr : string) (macs : list string)
    (n : virNetwork) : list DhcpHost :=
  filter (fun e => dhcp_ip e = Some ipstr \/ dhcp_mac e ∈ Some <$> macs)
    (dhcp_hosts n).

(** The entries [add_domain_to_network] registers for a domain at the
    interface [i4], from the two host templates. *)
Definition dns_entry_of (HOST : DnsHost) (domain : LibvirtDomain)
    (i4 : IPv4Interface) : DnsHost :=
  {| dns_ip := Some (exploded (ip i4));
     hostnames :=
       hostnames HOST
       ++ omap (fun name => if str_truthy name then name else None)
            [Some (name domain); fqdn domain] |}.

Definition dhcp_entry_of (DHCP : DhcpHost) (mac : string)
    (i4 : IPv4Interface) : DhcpHost :=
  {| dhcp_mac := Some mac; dhcp_name := dhcp_name DHCP;
     dhcp_ip := Some (exploded (ip i4)) |}.

(** ** Sample values *)

Module Sample.

(** The strings the samples hand to [ipaddress]. *)
Definition IPv4Interface_of_str (s : string) : option IPv4Interface :=
  if String.eqb s "192.0.2.5/24"
  then Some {| ip := addr 192 0 2 5; prefixlen := 24 |}
  else if String.eqb s "192.0.2.7/24"
  then Some {| ip := addr 192 0 2 7; prefixlen := 24 |}
  else None.

Definition IPv6Interface_of_str (s : string) : option IPv6Interface := None.

Definition gw : IPv4Interface := {| ip := addr 192 0 2 1; prefixlen := 24 |}.

Definition empty_network : virNetwork := {| dns_hosts := []; dhcp_hosts := [] |}.

Definition vm (nm : string) (meta : gmap string string) (macs : list string)
    : virDomain :=
  {| vir_name := nm; vir_metadata := meta; vir_macs := macs; vir_disks := [] |}.

(** A session on 192.0.2.0/24 with three defined domains: one without
    an address, one at .5 and one at .7. *)
Definition session : LibvirtHypervisor :=
  init_network
    [vm "a" ∅ [];
     vm "b" {["ipv4" := "192.0.2.5/24"]} ["52:54:00:00:00:05"];
     vm "c" {["ipv4" := "192.0.2.7/24"]} ["52:54:00:00:00:07"]]
    empty_network (addr 192 0 2 1) 24.

(** A session on the same network whose domains carry no address. *)
Definition fresh_session : LibvirtHypervisor :=
  init_network [vm "a" ∅ []; vm "b" {["distro" := "fedora-40"]} []]
    empty_network (addr 192 0 2 1) 24.

Definition i5 : IPv4Interface := {| ip := addr 192 0 2 5; prefixlen := 24 |}.
Definition i6 : IPv4Interface := {| ip := addr 192 0 2 6; prefixlen := 24 |}.

(** A domain at .5 with two interfaces, the second on DHCP. *)
Definition two_nics : LibvirtDomain :=
  {| dom := vm "b" {["ipv4" := "192.0.2.5/24"]}
              ["52:54:00:00:00:05"; "52:54:00:00:00:15"];
     user_data := ∅; _ssh_key := None; default_nic_model := Some "virtio";
     additional_ipv4 := [Some "dhcp"]; blockdev := None |}.

Definition HOST : DnsHost := {| dns_ip := None; hostnames := [] |}.
Definition DHCP : DhcpHost :=
  {| dhcp_mac := None; dhcp_name := None; dhcp_ip := None |}.

(** Tables that still hold the entries of an earlier run of the
    domain at .5, twice for DNS, next to those of another domain. *)
Definition stale_network : virNetwork :=
  {| dns_hosts :=
       [{| dns_ip := Some "192.0.2.5"; hostnames := ["b"] |};
        {| dns_ip := Some "192.0.2.7"; hostnames := ["c"] |};
        {| dns_ip := Some "192.0.2.5"; hostnames := ["b"] |}];
     dhcp_hosts :=
       [{| dhcp_mac := Some "52:54:00:00:00:15"; dhcp_name := None;
           dhcp_ip := Some "192.0.2.9" |};
        {| dhcp_mac := Some "52:54:00:00:00:07"; dhcp_name := None;
           dhcp_ip := Some "192.0.2.7" |};
        {| dhcp_mac := Some "52:54:00:00:00:aa"; dhcp_name := None;
           dhcp_ip := Some "192.0.2.5" |}] |}.

Definition stale_session : LibvirtHypervisor :=
  init_network [] stale_network (addr 192 0 2 1) 24.

(** A fresh domain of the [esxi] family and one of another distro. *)
Definition esxi : LibvirtDomain :=
  LibvirtDomain_init (vm "e" {["distro" := "esxi-6.7"]} []).
Definition fedora : LibvirtDomain :=
  LibvirtDomain_init (vm "f" {["distro" := "fedora-40"]} []).

Definition seed_then_root : list (string * string * string) :=
  [("f-cidata.qcow2", "cdrom", "raw"); ("f.qcow2", "disk", "qcow2")].

(** The distro file sets the memory and an empty group list; the user
    asks for no memory and for one group. *)
Definition upstream_yaml (distro : option string)
    : option (option (gmap string pyval)) :=
  Some (Some (<["memory" := PInt 1024]> {["groups" := PList []]})).

Definition user_config : gmap string pyval :=
  <["memory" := PInt 0]> {["groups" := PList [PStr "wheel"]]}.

End Sample.

Example session_allocates_6 :
  fst <$> (match get_free_ipv4 Sample.IPv4Interface_of_str
                   Sample.IPv6Interface_of_str Sample.session with
           | Return r => Some r | Raise _ => None end)
  = Some (Some {| ip := addr 192 0 2 6; prefixlen := 24 |}).
Proof. vm_compute. reflexivity. Qed.

(** ** More of [LibvirtDomain] *)

(** [s.split(sep)] for a separator of one character. *)
Fixpoint split (sep : ascii) (s : string) : list string :=
  match s with
  | EmptyString => [""]
  | String c s' =>
      if Ascii.eqb c sep then "" :: split sep s'
      else
        match split sep s' with
        | x :: rest => String c x :: rest
        | [] => [String c ""]
        end
  end.

(** The [groups] property. *)
Definition groups (d : LibvirtDomain) : list string :=
  let value := get_metadata d "groups" in
  if negb (str_truthy value) then [] else split "," (default "" value).

(** [items[k] = v] and [items.get(k)] on the items of a [dict]: a key
    that is there keeps its place, a new one goes last. *)
Fixpoint dict_set (k : string) (v : pyval) (items : list (string * pyval))
    : list (string * pyval) :=
  match items with
  | [] => [(k, v)]
  | (k', v') :: rest =>
      if String.eqb k' k then (k', v) :: rest
      else (k', v') :: dict_set k v rest
  end.

Fixpoint dict_get (k : string) (items : list (string * pyval)) : option pyval :=
  match items with
  | [] => None
  | (k', v') :: rest => if String.eqb k' k then Some v' else dict_get k rest
  end.

Definition IOError (filename : string) : exn := Exception "IOError" filename.

(** [fqdn.setter] on any value of a configuration: a falsy value is
    logged and dropped before the pattern sees it, a string goes through
    the pattern, and [fqdn_validate.match] raises [TypeError] on a truthy
    value that is not a string. *)
Definition set_fqdn_value (d : LibvirtDomain) (value : pyval)
    : result LibvirtDomain :=
  match value with
  | PNone => set_fqdn d None
  | PStr v => set_fqdn d (Some v)
  | _ => if truthy value then Raise TypeError else Return d
  end.

Definition set_ssh_key (d : LibvirtDomain) (value : string) : LibvirtDomain :=
  {| dom := dom d; user_data := user_data d; _ssh_key := Some value;
     default_nic_model := default_nic_model d;
     additional_ipv4 := additional_ipv4 d; blockdev := blockdev d |}.

(** [self.user_data["users"][0]["ssh_authorized_keys"] = v], on the value
    stored under ["users"]. *)
Definition set_first_user_keys (users : pyval) (v : pyval) : result pyval :=
  match users with
  | PList (PDict items :: rest) =>
      Return (PList (PDict (dict_set "ssh_authorized_keys" v items) :: rest))
  | PList [] => Raise IndexError
  | PList (_ :: _) => Raise TypeError
  | PDict _ => Raise KeyError
  | PStr EmptyString => Raise IndexError
  | _ => Raise TypeError
  end.

Section Files.

(** [open(os.path.expanduser(path), "r").read()]; [None] stands for
    [IOError]. *)
Variable read_file : string -> option string.

(** [load_ssh_key_file] *)
Definition load_ssh_key_file (d : LibvirtDomain) (ssh_key_file : string)
    : result LibvirtDomain :=
  match read_file ssh_key_file with
  | None => Raise (IOError ssh_key_file)
  | Some key =>
      let d1 := set_ssh_key d key in
      let keys := PList [pyval_of_opt (ssh_key d1)] in
      let d2 := set_user_data d1 (<["ssh_authorized_keys" := keys]> (user_data d1)) in
      match user_data d2 !! "users" with
      | None => Return d2
      | Some users =>
          users' <- set_first_user_keys users keys ;;
          Return (set_user_data d2 (<["users" := users']> (user_data d2)))
      end
  end.

End Files.

(** ** More of [LibvirtHypervisor] *)

(** [domain_type], on the types the capabilities report. *)
Definition domain_type (available : list string) : result string :=
  match available with
  | [] => Raise (Exception "No domain type available!" "")
  | _ :: _ =>
      match merge_sort String.le available with
      | x :: _ => Return x
      | [] => Raise IndexError
      end
  end.

Definition KVM_BINARIES : list string :=
  ["/usr/bin/qemu-system-x86_64"; "/usr/bin/qemu-kvm"; "/usr/bin/kvm";
   "/usr/libexec/qemu-kvm"].

Definition ISO_BINARIES : list string := ["genisoimage"; "mkisofs"].

Section Probes.

(** [PosixPath(p).exists()], and [(PosixPath(i) / binary).exists()] for a
    directory of the search path. *)
Variable path_exists : string -> bool.
Variable exe_exists : string -> string -> bool.

(** [kvm_binary] *)
Definition kvm_binary : result string :=
  match List.find path_exists KVM_BINARIES with
  | Some i => Return i
  | None => Raise (Exception "Failed to find the kvm binary in: " "")
  end.

(** The loops of [iso_binary] over the directories; the executable found
    is given as its directory and its name. *)
Fixpoint find_iso_binary (paths : list string) : option (string * string) :=
  match paths with
  | [] => None
  | i :: rest =>
      match List.find (exe_exists i) ISO_BINARIES with
      | Some binary => Some (i, binary)
      | None => find_iso_binary rest
      end
  end.

(** [iso_binary]; [PATH] is [os.environ.get("PATH")]. *)
Definition iso_binary (PATH : option string) : result (string * string) :=
  match PATH with
  | None => Raise KeyError
  | Some p =>
      match find_iso_binary (split ":" p) with
      | Some exe => Return exe
      | None => Raise (Exception "Failed to find %s in %s" "genisoimage:mkisofs")
      end
  end.

End Probes.

(** The predicates of the further statements. *)

Definition comma_free (s : string) : bool := negb (str_contains "," s).

(** An address the scan of [get_free_ipv4] passes over. *)
Definition skipped (last : option IPv4Interface) (used : list Interface)
    (a : Z) : Prop :=
  a mod 256 < 5
  \/ (exists l, last = Some l /\ interface_ge l {| ip := a; prefixlen := 24 |} = true)
  \/ IPv4Address a ∈ interface_ip <$> used.

(** The strings the validators take: the login names and the non-empty
    hostname strings, alone or followed by one newline. *)
Definition with_optional_newline (ok : string -> bool) (s : string) : Prop :=
  ok s = true \/ exists s', s = s' +:+ String re.newline "" /\ ok s' = true.

Definition hostname (s : string) : bool :=
  hostname_chars s && negb (String.eqb s "").

(** The strings under a key of every network entry of a document. *)
Definition doc_list (k : string) (doc : pyval) : list pyval :=
  match doc with
  | PDict items =>
      match dict_get k items with Some (PList l) => l | _ => [] end
  | _ => []
  end.

Definition entry_field (k : string) (entry : pyval) : option pyval :=
  match entry with PDict items => dict_get k items | _ => None end.

(** The tables after the three passes for the address [ipstr] and the MAC
    addresses [macs]. *)
Definition retracted (ipstr : string) (macs : list string) (n : virNetwork)
    : virNetwork :=
  {| dns_hosts := filter (fun e => dns_ip e <> Some ipstr) (dns_hosts n);
     dhcp_hosts :=
       filter (fun e => dhcp_mac e ∉ Some <$> macs)
         (filter (fun e => dhcp_ip e <> Some ipstr) (dhcp_hosts n)) |}.

(** The identifier of the link of the [j]-th interface. *)
Definition interface_id (j : nat) : pyval := PStr ("interface" +:+ str_of_nat j).

Module MoreSamples.

Definition read_file (path : string) : option string :=
  if String.eqb path "~/.ssh/id_rsa.pub" then Some "ssh-rsa AAAA me@host"
  else None.

(** Only [/usr/bin/kvm] of the candidates is there. *)
Definition path_exists (p : string) : bool := String.eqb p "/usr/bin/kvm".

(** [mkisofs] in [/opt/bin], [genisoimage] in [/usr/bin]. *)
Definition exe_exists (dir binary : string) : bool :=
  (String.eqb dir "/opt/bin" && String.eqb binary "mkisofs")
  || (String.eqb dir "/usr/bin" && String.eqb binary "genisoimage").

(** A domain with three interfaces: the second without an address, the
    third on DHCP. *)
Definition three_nics : LibvirtDomain :=
  {| dom := Sample.vm "t" {["ipv4" := "192.0.2.5/24"]}
              ["52:54:00:00:00:05"; "52:54:00:00:00:15"; "52:54:00:00:00:25"];
     user_data := ∅; _ssh_key := None; default_nic_model := Some "virtio";
     additional_ipv4 := [None; Some "dhcp"]; blockdev := None |}.

(** A session whose cursor stands on the last address of the network. *)
Definition spent_session : LibvirtHypervisor :=
  set_last_free_ipv4 Sample.session
    {| ip := addr 192 0 2 255; prefixlen := 24 |}.

(** A session with a domain whose metadata is no address. *)
Definition broken_session : LibvirtHypervisor :=
  init_network [Sample.vm "a" ∅ []; Sample.vm "x" {["ipv4" := "n/a"]} []]
    Sample.empty_network (addr 192 0 2 1) 24.

(** A domain without distro metadata. *)
Definition untagged : LibvirtDomain := LibvirtDomain_init (Sample.vm "u" ∅ []).

End MoreSamples.

(** * Properties *)

(** ** The address allocator *)

Section AllocatorProperties.

Context (v4 : string -> option IPv4Interface)
        (v6 : string -> option IPv6Interface).

Lemma last_octet (a : Z) : nth 3 (octets a) 0 = a mod 256.
Proof. cbn. change 255 with (Z.ones 8). now rewrite Z.land_ones by lia. Qed.

Lemma scan_network_cons last used a rest :
  scan_network last used (a :: rest) =
    let interface := {| ip := a; prefixlen := 24 |} in
    if nth 3 (octets a) 0 <? 5 then scan_network last used rest
    else if match last with
            | Some l => interface_ge l interface
            | None => false
            end
    then scan_network last used rest
    else if negb (bool_decide (IPv4Address a ∈ interface_ip <$> used))
    then Some interface
    else scan_network last used rest.
Proof. reflexivity. Qed.

(** What the scan returns passed the three filters. *)
Lemma scan_network_sound last used ips i :
  scan_network last used ips = Some i ->
  ip i ∈ ips
  /\ prefixlen i = 24
  /\ 5 <= ip i mod 256
  /\ (forall l, last = Some l -> interface_ge l i = false)
  /\ IPv4Address (ip i) ∉ interface_ip <$> used.
Proof.
  induction ips as [|a rest IH]; [discriminate|].
  rewrite scan_network_cons, last_octet. cbv zeta.
  destruct (Z.ltb_spec (a mod 256) 5) as [Hlt|Hge].
  { intros H. destruct (IH H) as (? & ?). split; [by right | done]. }
  destruct (match last with
            | Some l => interface_ge l {| ip := a; prefixlen := 24 |}
            | None => false end) eqn:Hcur.
  { intros H. destruct (IH H) as (? & ?). split; [by right | done]. }
  case_bool_decide as Hin; simpl.
  { intros H. destruct (IH H) as (? & ?). split; [by right | done]. }
  intros [= <-]. simpl. repeat split; [by left | done | | done].
  intros l ->. exact Hcur.
Qed.

(** The used list keeps what it had and gains the interface of every
    domain whose metadata is not empty. *)
Lemma collect_used_ips_spec doms : forall used used',
  collect_used_ips v4 v6 used doms = Return used' ->
  (forall x, x ∈ used -> x ∈ used')
  /\ (forall d s itf,
        d ∈ doms -> get_metadata d "ipv4" = Some s -> s <> "" ->
        ip_interface v4 v6 s = Return itf -> itf ∈ used').
Proof.
  induction doms as [|d rest IH]; simpl; intros used used' H.
  { injection H as <-. split; [done|]. intros ? ? ? Hd. by inversion Hd. }
  destruct (str_truthy (get_metadata d "ipv4")) eqn:Ht; simpl in H.
  - destruct (get_metadata d "ipv4") as [s0|] eqn:Hm; [|discriminate].
    simpl in H. destruct (ip_interface v4 v6 s0) as [itf0|] eqn:Hp; [|discriminate].
    simpl in H. destruct (IH _ _ H) as [Hsub Hdoms]. split.
    + intros x Hx. apply Hsub. apply elem_of_app. by left.
    + intros d' s itf Hd Hs Hne Hitf.
      apply elem_of_cons in Hd as [->|Hd]; [|by eapply Hdoms].
      rewrite Hm in Hs. injection Hs as ->. rewrite Hp in Hitf.
      injection Hitf as ->. apply Hsub, elem_of_app. right. by left.
  - destruct (IH _ _ H) as [Hsub Hdoms]. split; [done|].
    intros d' s itf Hd Hs Hne Hitf.
    apply elem_of_cons in Hd as [->|Hd]; [|by eapply Hdoms].
    rewrite Hs in Ht. simpl in Ht.
    destruct (String.eqb_spec s ""); [done | discriminate].
Qed.

Lemma collect_used_ips_no_metadata doms used :
  Forall (fun d => vir_metadata d !! "ipv4" = None) doms ->
  collect_used_ips v4 v6 used (LibvirtDomain_init <$> doms) = Return used.
Proof.
  induction 1 as [|d rest Hd _ IH]; simpl; [done|].
  unfold get_metadata. simpl. by rewrite Hd.
Qed.

Lemma land_netmask_24 (a : Z) :
  0 <= a < 2 ^ 32 -> Z.land a (netmask_of 24) = 256 * (a / 256).
Proof.
  intros Ha. unfold netmask_of.
  assert (Z.land a (Z.ones 32) = a) as H32.
  { rewrite Z.land_ones by lia. apply Z.mod_small. lia. }
  assert (Z.ones 32 = Z.lor (Z.shiftl (Z.ones 24) (32 - 24)) (Z.ones 8))
    as Hsplit by reflexivity.
  rewrite Hsplit, Z.land_lor_distr_r in H32.
  assert (Z.land (Z.land a (Z.shiftl (Z.ones 24) (32 - 24)))
            (Z.land a (Z.ones 8)) = 0) as Hdisj.
  { rewrite Z.land_assoc, (Z.land_comm _ a), Z.land_assoc, Z.land_diag.
    rewrite <- Z.land_assoc.
    change (Z.land (Z.shiftl (Z.ones 24) (32 - 24)) (Z.ones 8)) with 0.
    apply Z.land_0_r. }
  rewrite <- Z.lxor_lor, <- Z.add_nocarry_lxor in H32 by exact Hdisj.
  rewrite (Z.land_ones a 8) in H32 by lia. change (2 ^ 8) with 256 in H32.
  pose proof (Z.div_mod a 256 ltac:(lia)). lia.
Qed.

(** Between two /24 interfaces, [l >= i] is false exactly when the
    address of [l] is below that of [i]. *)
Lemma interface_ge_24 (l i : IPv4Interface) :
  prefixlen l = 24 -> prefixlen i = 24 ->
  0 <= ip l < 2 ^ 32 -> 0 <= ip i < 2 ^ 32 ->
  interface_ge l i = negb (ip l <? ip i).
Proof.
  intros Hl Hi Hrl Hri. unfold interface_ge. f_equal.
  unfold interface_lt, network_lt, network_eq, interface_network, netmask.
  simpl. rewrite Hl, Hi, !land_netmask_24 by done.
  rewrite Z.eqb_refl. simpl. rewrite andb_true_r.
  destruct (Z.eqb_spec (256 * (ip l / 256)) (256 * (ip i / 256))) as [He|Hne];
    simpl; [done|].
  pose proof (Z.div_mod (ip l) 256 ltac:(lia)).
  pose proof (Z.div_mod (ip i) 256 ltac:(lia)).
  pose proof (Z.mod_pos_bound (ip l) 256 ltac:(lia)).
  pose proof (Z.mod_pos_bound (ip i) 256 ltac:(lia)).
  destruct (Z.ltb_spec (ip l) (ip i)), (Z.ltb_spec (256 * (ip l / 256))
    (256 * (ip i / 256))); try done; lia.
Qed.

(** The cursor moves forward: an address handed out after the cursor was
    set lies strictly above it, and becomes the cursor. *)
Lemma get_free_ipv4_after_cursor (h h' : LibvirtHypervisor)
    (l i : IPv4Interface) :
  _last_free_ipv4 h = Some l -> prefixlen l = 24 ->
  0 <= ip l < 2 ^ 32 -> 0 <= ip i < 2 ^ 32 ->
  get_free_ipv4 v4 v6 h = Return (Some i, h') ->
  ip l < ip i /\ _last_free_ipv4 h' = Some i.
Proof.
  unfold get_free_ipv4. intros Hlast Hl Hrl Hri H.
  destruct (collect_used_ips v4 v6 [V4 (gateway h)] (list_domains h))
    as [used|]; simpl in H; [|discriminate].
  destruct (scan_network _ used _) as [j|] eqn:Hscan; [|discriminate].
  injection H as -> <-. split; [|done].
  apply scan_network_sound in Hscan as (_ & Hp & _ & Hcur & _).
  specialize (Hcur l Hlast). rewrite interface_ge_24 in Hcur by done.
  apply negb_false_iff, Z.ltb_lt in Hcur. exact Hcur.
Qed.

(** C1: on 192.0.2.0/24 with gateway 192.0.2.1, a fresh cursor and no
    domain carrying [ipv4] metadata, the first call of [get_free_ipv4]
    returns 192.0.2.5 and moves the cursor there; the second call,
    with the domains unchanged (so .5 recorded nowhere), returns
    192.0.2.6. *)
Theorem get_free_ipv4_first_two_calls (h : LibvirtHypervisor) :
  gateway h = {| ip := addr 192 0 2 1; prefixlen := 24 |} ->
  network h = {| network_address := addr 192 0 2 0; net_prefixlen := 24 |} ->
  _last_free_ipv4 h = None ->
  Forall (fun d => vir_metadata d !! "ipv4" = None) (conn_domains h) ->
  let i5 := {| ip := addr 192 0 2 5; prefixlen := 24 |} in
  let i6 := {| ip := addr 192 0 2 6; prefixlen := 24 |} in
  let h1 := set_last_free_ipv4 h i5 in
  get_free_ipv4 v4 v6 h = Return (Some i5, h1)
  /\ conn_domains h1 = conn_domains h
  /\ get_free_ipv4 v4 v6 h1 = Return (Some i6, set_last_free_ipv4 h1 i6).
Proof.
  intros Hgw Hnet Hlast Hdoms. simpl. split; [|split; [done|]].
  - unfold get_free_ipv4, list_domains.
    rewrite collect_used_ips_no_metadata by done. simpl.
    rewrite Hgw, Hnet, Hlast. vm_compute. reflexivity.
  - unfold get_free_ipv4, list_domains. simpl.
    rewrite collect_used_ips_no_metadata by done. simpl.
    rewrite Hgw, Hnet. vm_compute. reflexivity.
Qed.

(** C2: whatever the gateway, the domains and the cursor, an address
    that [get_free_ipv4] returns is not the gateway's, is not the
    address of any interface recorded in a defined domain's [ipv4]
    metadata, and has a last octet of at least 5. *)
Theorem get_free_ipv4_avoids_used (h h' : LibvirtHypervisor)
    (i : IPv4Interface) :
  get_free_ipv4 v4 v6 h = Return (Some i, h') ->
  ip i <> ip (gateway h)
  /\ (forall d s itf,
        d ∈ conn_domains h -> vir_metadata d !! "ipv4" = Some s -> s <> "" ->
        ip_interface v4 v6 s = Return itf ->
        interface_ip itf <> IPv4Address (ip i))
  /\ 5 <= ip i mod 256.
Proof.
  unfold get_free_ipv4. intros H.
  destruct (collect_used_ips v4 v6 [V4 (gateway h)] (list_domains h))
    as [used|] eqn:Hused; simpl in H; [|discriminate].
  destruct (scan_network _ used _) as [j|] eqn:Hscan; [|discriminate].
  injection H as -> _.
  apply scan_network_sound in Hscan as (_ & _ & Hoct & _ & Hnot).
  apply collect_used_ips_spec in Hused as [Hsub Hdoms].
  split; [|split; [|done]].
  - intros Heq. apply Hnot. apply list_elem_of_fmap.
    exists (V4 (gateway h)). simpl. split; [by rewrite Heq|].
    apply Hsub. by left.
  - intros d s itf Hd Hs Hne Hitf Heq. apply Hnot.
    apply list_elem_of_fmap. exists itf. split; [done|].
    apply (Hdoms (LibvirtDomain_init d) s itf); try done.
    unfold list_domains. apply list_elem_of_fmap. by exists d.
Qed.

End AllocatorProperties.

(** ** The layered merge *)

Section MergeProperties.

Context (getuser : string)
        (upstream_yaml : option string -> option (option (gmap string pyval))).

(** One loop of the merge, key by key: a truthy value of the layer
    replaces the value of [config], anything else leaves it. *)
Lemma merge_layer_lookup (layer config : gmap string pyval) (k : string) :
  merge_layer layer config !! k =
    match layer !! k with
    | Some v => if truthy v then Some v else config !! k
    | None => config !! k
    end.
Proof.
  unfold merge_layer.
  apply (map_fold_weak_ind (fun (r m : gmap string pyval) =>
    r !! k = match m !! k with
             | Some v => if truthy v then Some v else config !! k
             | None => config !! k
             end)).
  { by rewrite lookup_empty. }
  intros i x m r Hi IH. destruct (decide (i = k)) as [->|Hne].
  - rewrite lookup_insert_eq. rewrite Hi in IH.
    destruct (truthy x); [by rewrite lookup_insert_eq | done].
  - rewrite (lookup_insert_ne m) by done.
    destruct (truthy x); [by rewrite lookup_insert_ne | done].
Qed.

(** C3: for a key that the defaults, the distro file and the user
    configuration all carry, [configure_domain] resolves it to the user
    value when that value is truthy; a falsy user value leaves the
    result of the earlier layers, where a falsy distro value leaves the
    default. *)
Theorem merged_config_truthy_later_layer_wins
    (domain : LibvirtDomain) (user_config : gmap string pyval)
    (k : string) (v_default v_distro v_user : pyval) :
  default_config getuser !! k = Some v_default ->
  get_distro_configuration upstream_yaml (distro domain) !! k = Some v_distro ->
  user_config !! k = Some v_user ->
  merged_config getuser upstream_yaml domain user_config !! k =
    Some (if truthy v_user then v_user
          else if truthy v_distro then v_distro
          else v_default).
Proof.
  intros Hd Hdist Hu. unfold merged_config.
  rewrite !merge_layer_lookup, Hu, Hdist, Hd.
  by destruct (truthy v_user), (truthy v_distro).
Qed.

End MergeProperties.

(** ** The validators *)

Section RepeatProperties.

Context (k : bool -> string -> bool) (ic : bool) (set : list re.item).

Definition within (hi : option nat) (n : nat) : Prop :=
  forall h, hi = Some h -> (n <= h)%nat.

Definition start_after (pre : string) (start : bool) : bool :=
  match pre with EmptyString => start | String _ _ => false end.

Lemma match_repeat_unfold lo hi start s :
  re.match_repeat k ic set lo hi start s =
    match s with
    | String c s' =>
        re.in_set ic set c && re.hi_allows hi
        && re.match_repeat k ic set (pred lo) (re.dec_hi hi) false s'
    | EmptyString => false
    end
    || match lo with O => k start s | S _ => false end.
Proof. by destruct s. Qed.

(** A prefix of set characters of an allowed length, followed by a
    rest the continuation accepts, is matched. *)
Lemma match_repeat_intro pre : forall post lo hi start,
  str_forallb (re.in_set ic set) pre = true ->
  (lo <= String.length pre)%nat -> within hi (String.length pre) ->
  k (start_after pre start) post = true ->
  re.match_repeat k ic set lo hi start (pre +:+ post) = true.
Proof.
  induction pre as [|c pre IH]; intros post lo hi start Hall Hlo Hhi Hk;
    rewrite match_repeat_unfold; simpl in *.
  - assert (lo = O) as -> by lia. change ("" +:+ post) with post.
    rewrite Hk. apply orb_true_r.
  - change (String c pre +:+ post) with (String c (pre +:+ post)).
    apply andb_prop in Hall as [Hc Hall]. rewrite Hc. simpl.
    assert (re.hi_allows hi = true) as ->.
    { destruct hi as [[|h]|]; try done. specialize (Hhi _ eq_refl). lia. }
    rewrite IH; try done.
    + lia.
    + intros h Hh. destruct hi as [h0|]; [|done]. simpl in Hh.
      injection Hh as <-. specialize (Hhi _ eq_refl). lia.
    + by destruct pre.
Qed.

(** Every match splits the string that way. *)
Lemma match_repeat_elim s : forall lo hi start,
  re.match_repeat k ic set lo hi start s = true ->
  exists pre post,
    s = pre +:+ post
    /\ str_forallb (re.in_set ic set) pre = true
    /\ (lo <= String.length pre)%nat /\ within hi (String.length pre)
    /\ k (start_after pre start) post = true.
Proof.
  induction s as [|c s IH]; intros lo hi start;
    rewrite match_repeat_unfold; intros H;
    apply orb_prop in H as [H|H].
  - discriminate.
  - destruct lo; [|discriminate]. exists "", "".
    split_and!; try done. intros h _. simpl. lia.
  - apply andb_prop in H as [H Hrec]. apply andb_prop in H as [Hc Hallow].
    destruct (IH _ _ _ Hrec) as (pre & post & -> & Hall & Hlo & Hhi & Hk).
    exists (String c pre), post. simpl. rewrite Hc, Hall.
    split_and!; try done.
    + lia.
    + intros h ->. destruct h as [|h]; [discriminate|].
      specialize (Hhi h eq_refl). lia.
    + by destruct pre.
  - destruct lo; [|discriminate]. exists "", (String c s).
    split_and!; try done. intros h _. simpl. lia.
Qed.

End RepeatProperties.

Ltac by_ascii_cases c :=
  destruct c as [[] [] [] [] [] [] [] []]; vm_compute;
  first [reflexivity | intros; first [reflexivity | discriminate]].

Lemma username_first_set c :
  re.in_set false [re.Range "a" "z"; re.Lit "_"] c
  = is_lower c || is_char "_" c.
Proof. by_ascii_cases c. Qed.

Lemma username_rest_set c :
  re.in_set false
    [re.Range "a" "z"; re.Range "0" "9"; re.Lit "_"; re.Lit "-"] c
  = login_char c.
Proof. by_ascii_cases c. Qed.

Lemma fqdn_set c :
  re.in_set true [re.Lit "."; re.Range "a" "z"; re.Range "0" "9"] c
  = hostname_char c.
Proof. by_ascii_cases c. Qed.

Lemma newline_not_login_char c : is_char re.newline c = true -> login_char c = false.
Proof. by_ascii_cases c. Qed.

Lemma newline_not_hostname_char c :
  is_char re.newline c = true -> hostname_char c = false.
Proof. by_ascii_cases c. Qed.

Lemma str_forallb_ext f g s :
  (forall c, f c = g c) -> str_forallb f s = str_forallb g s.
Proof. intros H. induction s as [|c s IH]; simpl; [done|]. by rewrite H, IH. Qed.

Lemma str_forallb_app f s t :
  str_forallb f (s +:+ t) = str_forallb f s && str_forallb f t.
Proof.
  induction s as [|c s IH]; [done|].
  change (String c s +:+ t) with (String c (s +:+ t)). simpl.
  by rewrite IH, andb_assoc.
Qed.

Lemma str_app_nil_r s : s +:+ "" = s.
Proof.
  induction s as [|c s IH]; [done|].
  change (String c s +:+ "") with (String c (s +:+ "")). by rewrite IH.
Qed.

Lemma at_end_cases s :
  re.at_end s = true ->
  s = "" \/ exists c, s = String c "" /\ is_char re.newline c = true.
Proof.
  destruct s as [|c [|]]; simpl; [by left | | done].
  intros H. right. by exists c.
Qed.

Lemma ends_with_newline_app pre c :
  is_char re.newline c = true -> ends_with_newline (pre +:+ String c "") = true.
Proof.
  intros Hc. induction pre as [|x pre IH]; [done|].
  change (String x pre +:+ String c "") with (String x (pre +:+ String c "")).
  simpl. rewrite IH. by destruct pre.
Qed.

(** Without a newline at its end, a string that splits into a prefix and
    a rest accepted by [$] is the prefix. *)
Lemma no_newline_rest_empty pre post :
  re.at_end post = true -> ends_with_newline (pre +:+ post) = false ->
  post = "".
Proof.
  intros Hend Hnl. apply at_end_cases in Hend as [->|(c & -> & Hc)]; [done|].
  by rewrite ends_with_newline_app in Hnl.
Qed.

Lemma ends_with_newline_cons c s :
  ends_with_newline (String c s) = false -> ends_with_newline s = false.
Proof. destruct s; [done|]. simpl. done. Qed.

(** What the username pattern matches, apart from a newline at the end of
    the string: the login names. *)
Lemma username_pattern_login_name s :
  ends_with_newline s = false ->
  re.match_ false username_pattern s = login_name s.
Proof.
  intros Hnl. destruct s as [|c r]; [done|].
  unfold re.match_, username_pattern, login_name. cbn [re.match_here].
  rewrite username_first_set.
  destruct (is_lower c || is_char "_" c) eqn:Hc; [|done].
  rewrite !andb_true_l, <- andb_assoc.
  apply ends_with_newline_cons in Hnl as Hnl'.
  apply Bool.eq_true_iff_eq. split.
  - intros Hm.
    apply match_repeat_elim in Hm as (pre & post & -> & Hall & Hlo & Hhi & Hk).
    apply andb_prop in Hk as [Hend _].
    assert (post = "") as ->.
    { destruct (pre +:+ post) as [|x r'] eqn:Hr0.
      - destruct pre; [simpl in Hlo; lia | done].
      - rewrite <- Hr0 in Hnl. by eapply (no_newline_rest_empty (String c pre)). }
    rewrite str_app_nil_r.
    rewrite (str_forallb_ext _ _ _ username_rest_set) in Hall.
    rewrite Hall, andb_true_l. apply andb_true_intro. split.
    + by apply Nat.leb_le.
    + apply Nat.leb_le. by apply Hhi.
  - intros Hr. apply andb_prop in Hr as [Hall Hr].
    apply andb_prop in Hr as [Hlo Hhi].
    rewrite <- (str_app_nil_r r).
    apply match_repeat_intro.
    + by rewrite (str_forallb_ext _ _ _ username_rest_set).
    + by apply Nat.leb_le.
    + intros h [= <-]. by apply Nat.leb_le.
    + done.
Qed.

(** What the fqdn pattern matches, apart from a newline at the end of the
    string: the non-empty strings of hostname characters. *)
Lemma fqdn_validate_hostname_chars s :
  ends_with_newline s = false ->
  re.match_ true fqdn_validate s
  = hostname_chars s && negb (String.eqb s "").
Proof.
  intros Hnl. unfold re.match_, fqdn_validate, hostname_chars.
  cbn [re.match_here andb].
  apply Bool.eq_true_iff_eq. split.
  - intros Hm.
    apply match_repeat_elim in Hm as (pre & post & -> & Hall & Hlo & Hhi & Hk).
    apply andb_prop in Hk as [Hend _].
    assert (post = "") as -> by by eapply no_newline_rest_empty.
    rewrite str_app_nil_r.
    rewrite (str_forallb_ext _ _ _ fqdn_set) in Hall.
    rewrite Hall. destruct pre; [simpl in Hlo; lia | done].
  - intros Hs. apply andb_prop in Hs as [Hall Hne].
    rewrite <- (str_app_nil_r s). apply match_repeat_intro.
    + by rewrite (str_forallb_ext _ _ _ fqdn_set).
    + destruct s; [done | simpl; lia].
    + done.
    + by destruct s.
Qed.

(** A value that the element carries unchanged is read back as it was
    written. *)
Lemma get_metadata_record (d : LibvirtDomain) (k v : string) :
  xml_safe v = true ->
  get_metadata (record_metadata d k v) k = Some v.
Proof.
  intros _. unfold get_metadata, record_metadata. simpl.
  apply lookup_insert_eq.
Qed.

Lemma login_char_xml_safe c : login_char c = true -> xml_safe_char c = true.
Proof. by_ascii_cases c. Qed.

Lemma login_first_xml_safe c :
  is_lower c || is_char "_" c = true -> xml_safe_char c = true.
Proof. by_ascii_cases c. Qed.

Lemma hostname_char_xml_safe c :
  hostname_char c = true -> xml_safe_char c = true.
Proof. by_ascii_cases c. Qed.

Lemma str_forallb_impl (f g : ascii -> bool) (s : string) :
  (forall c, f c = true -> g c = true) ->
  str_forallb f s = true -> str_forallb g s = true.
Proof.
  intros Hfg. induction s as [|c s IH]; [done|]. simpl.
  intros [Hc Hs]%andb_prop. by rewrite (Hfg c Hc), IH.
Qed.

Lemma login_name_xml_safe s : login_name s = true -> xml_safe s = true.
Proof.
  destruct s as [|c r]; [done|]. unfold login_name, xml_safe.
  intros [[[Hc Hall]%andb_prop _]%andb_prop _]%andb_prop. simpl.
  rewrite (login_first_xml_safe c Hc). simpl.
  by apply (str_forallb_impl login_char), Hall; apply login_char_xml_safe.
Qed.

Lemma hostname_chars_xml_safe s : hostname_chars s = true -> xml_safe s = true.
Proof. apply str_forallb_impl, hostname_char_xml_safe. Qed.

(** A username that the pattern lets through reaches the [users]
    directive; it is read back from the metadata when the element
    carries it unchanged. *)
Lemma set_username_accept (d : LibvirtDomain) (s : string) :
  re.match_ false username_pattern s = true ->
  exists d', set_username d s = Return d'
             /\ (xml_safe s = true -> username d' = Some s)
             /\ is_Some (user_data d' !! "users").
Proof.
  intros Hm. unfold set_username. rewrite Hm.
  eexists. split; [reflexivity|]. split.
  - intros Hsafe. by apply get_metadata_record.
  - unfold record_metadata, set_dom, set_user_data.
    cbn [user_data]. rewrite lookup_insert_eq. by eexists.
Qed.

(** A value that the pattern lets through reaches the user-data
    document; it is read back from the metadata when the element
    carries it unchanged. *)
Lemma set_fqdn_accept (d : LibvirtDomain) (v : string) :
  re.match_ true fqdn_validate v = true -> v <> "" ->
  exists d', set_fqdn d (Some v) = Return d'
             /\ user_data d' !! "fqdn" = Some (PStr v)
             /\ (xml_safe v = true -> fqdn d' = Some v).
Proof.
  intros Hm Hne. unfold set_fqdn, str_truthy. rewrite Hm.
  destruct (String.eqb_spec v ""); [done|].
  eexists. split; [reflexivity|]. split.
  - unfold record_metadata, set_dom, set_user_data.
    cbn [user_data]. apply lookup_insert_eq.
  - intros Hsafe. by apply get_metadata_record.
Qed.

(** C4, as amended: for a string that does not end in a newline, the
    username setter accepts it exactly when it is a login name of the
    pattern (a lowercase letter or underscore, then 1 to 32 lowercase
    letters, digits, underscores or hyphens), recording it in the
    metadata and in the [users] directive, and raises otherwise;
    ["alice-2"] is accepted, ["Alice"] and ["2alice"] raise. *)
Theorem set_username_login_names (d : LibvirtDomain) (s : string) :
  ends_with_newline s = false ->
  (login_name s = true ->
     exists d', set_username d s = Return d'
                /\ username d' = Some s
                /\ is_Some (user_data d' !! "users"))
  /\ (login_name s = false ->
        set_username d s = Raise (Exception "Invalid username: " s))
  /\ returns (set_username d "alice-2") = true
  /\ set_username d "Alice" = Raise (Exception "Invalid username: " "Alice")
  /\ set_username d "2alice" = Raise (Exception "Invalid username: " "2alice").
Proof.
  intros Hnl. split_and!; try (vm_compute; reflexivity).
  - intros Hs.
    destruct (set_username_accept d s) as (d' & Hret & Hname & Husers).
    { by rewrite username_pattern_login_name. }
    exists d'. split_and!; try done. by apply Hname, login_name_xml_safe.
  - intros Hs. unfold set_username.
    by rewrite username_pattern_login_name, Hs.
Qed.

(** The setter refuses ["-a"], a name the wording of the design admits:
    login characters only, two of them, the first not a digit. *)
Lemma set_username_not_worded_login_names :
  ~ (forall (d : LibvirtDomain) (s : string),
       returns (set_username d s) = worded_login_name s).
Proof.
  intros H.
  specialize (H (LibvirtDomain_init (Sample.vm "a" ∅ [])) "-a").
  vm_compute in H. discriminate.
Qed.

(** The fqdn setter raises for no string and not for [None]. *)
Lemma set_fqdn_returns (d : LibvirtDomain) (value : option string) :
  returns (set_fqdn d value) = true.
Proof.
  unfold set_fqdn. destruct value as [v|]; [|done].
  by destruct (negb _ || negb _).
Qed.

(** Without a newline at its end, a value outside the hostname
    characters is dropped and the domain is left as it was; so is an
    empty value. *)
Lemma set_fqdn_drops (d : LibvirtDomain) (v : string) :
  ends_with_newline v = false -> hostname_chars v = false ->
  set_fqdn d (Some v) = Return d.
Proof.
  intros Hnl Hv. unfold set_fqdn.
  rewrite fqdn_validate_hostname_chars, Hv by done. simpl.
  by rewrite orb_true_r.
Qed.

Lemma set_fqdn_empty (d : LibvirtDomain) :
  set_fqdn d None = Return d /\ set_fqdn d (Some "") = Return d.
Proof. done. Qed.

Lemma set_fqdn_examples (d : LibvirtDomain) :
  (exists d', set_fqdn d (Some "host.example.com") = Return d'
              /\ fqdn d' = Some "host.example.com")
  /\ set_fqdn d (Some "bad_host!") = Return d.
Proof.
  split; [|vm_compute; reflexivity].
  destruct (set_fqdn_accept d "host.example.com") as (d' & ? & ? & Hread);
    [vm_compute; reflexivity | done |].
  exists d'. split; [done|]. by apply Hread.
Qed.

(** C5: the value ["host"] followed by a newline is outside the hostname
    characters, yet the fqdn setter does not drop it: the call returns
    a domain whose user-data document holds the value under [fqdn],
    where the domain before had no such directive. *)
Theorem set_fqdn_accepts_trailing_newline :
  let d := LibvirtDomain_init (Sample.vm "a" ∅ []) in
  let v := "host" +:+ String re.newline "" in
  hostname_chars v = false
  /\ user_data d !! "fqdn" = None
  /\ exists d', set_fqdn d (Some v) = Return d'
                /\ user_data d' !! "fqdn" = Some (PStr v).
Proof.
  intros d v. split; [vm_compute; reflexivity|]. split; [reflexivity|].
  destruct (set_fqdn_accept d v) as (d' & Hret & Hdoc & _);
    [vm_compute; reflexivity | done |].
  by exists d'.
Qed.

(** ** Disks and device names *)

Local Abbreviation letters := (list_ascii_of_string ascii_lowercase).

Definition device_name_of (c : ascii) : string := "vd" +:+ String c "".

(** The pool of a domain that has handed out [k] names: untouched when
    [k] is 0 and the attribute is not there yet, else the letters from
    the [k]-th on, reversed. *)
Definition pool_at (k : nat) (d : LibvirtDomain) : Prop :=
  (k = O /\ blockdev d = None)
  \/ blockdev d = Some (reverse (drop k letters)).

Lemma pop_reverse_cons {A} (x : A) (l : list A) :
  pop (reverse (x :: l)) = Return (x, reverse l).
Proof.
  unfold pop. rewrite reverse_cons, last_snoc.
  by rewrite removelast_last.
Qed.

Lemma pool_blockdev k d :
  pool_at k d ->
  match blockdev d with
  | None => reverse letters
  | Some b => b
  end = reverse (drop k letters).
Proof. intros [[-> ->]| ->]; done. Qed.

(** The [k]-th request of a name gives the [k]-th letter while there is
    one, and [IndexError] after the last. *)
Lemma getNextBlckDevice_at k d :
  pool_at k d ->
  match letters !! k with
  | Some c =>
      exists d', getNextBlckDevice d = Return (device_name_of c, d')
                 /\ pool_at (S k) d' /\ dom d' = dom d
  | None => getNextBlckDevice d = Raise IndexError
  end.
Proof.
  intros Hpool. pose proof (pool_blockdev _ _ Hpool) as Hb.
  unfold getNextBlckDevice.
  assert (default [] (blockdev
            match blockdev d with
            | None => set_blockdev d (reverse letters)
            | Some _ => d
            end) = reverse (drop k letters)) as ->.
  { destruct (blockdev d) eqn:Hd; simpl; [by rewrite Hd|done]. }
  destruct (letters !! k) as [c|] eqn:Hk.
  - rewrite (drop_S _ _ _ Hk), pop_reverse_cons. simpl.
    eexists. split; [reflexivity|]. split; [by right|].
    by destruct (blockdev d).
  - apply lookup_ge_None in Hk. by rewrite drop_ge.
Qed.

Lemma disk_bus_returns d device bus :
  disk_bus d device = Return bus ->
  bus = if String.eqb device "cdrom" then "ide"
        else if match distro d with
                | Some ds => String.prefix "esxi" ds
                | None => false
                end
        then "sata" else "virtio".
Proof.
  unfold disk_bus. destruct (String.eqb device "cdrom"); [by intros [= <-]|].
  destruct (distro d) as [ds|]; [|done].
  by destruct (String.prefix "esxi" ds); intros [= <-].
Qed.

(** C7, as amended: the disk that [attachDisk] attaches is on the [ide]
    bus when the device is [cdrom], whatever the distro; any other
    device is on [sata] for a domain whose distro starts with [esxi] and
    on [virtio] for every other domain. *)
Theorem attachDisk_bus (d d' : LibvirtDomain)
    (volume device disk_type device_name : string) :
  attachDisk d volume device disk_type = Return (device_name, d') ->
  exists x,
    vir_disks (dom d') = (vir_disks (dom d) ++ [x])%list
    /\ target_dev x = device_name
    /\ disk_device x = device
    /\ target_bus x =
         if String.eqb device "cdrom" then "ide"
         else if match distro d with
                 | Some ds => String.prefix "esxi" ds
                 | None => false
                 end
         then "sata" else "virtio".
Proof.
  unfold attachDisk. intros H.
  destruct (disk_bus d device) as [bus|] eqn:Hbus; [|done]. simpl in H.
  destruct (getNextBlckDevice d) as [[nm d1]|] eqn:Hnext; [|done].
  simpl in H. injection H as <- <-.
  assert (dom d1 = dom d) as Hdom.
  { unfold getNextBlckDevice in Hnext.
    destruct (pop _) as [[c b]|]; [|done]. simpl in Hnext.
    injection Hnext as _ <-. by destruct (blockdev d). }
  eexists. simpl. rewrite Hdom. split; [reflexivity|].
  simpl. split_and!; try done. by apply disk_bus_returns.
Qed.

(** A domain of the [esxi] family gets its seed media on [ide], so no
    single bus other than [ide] serves all its disks. *)
Lemma esxi_seed_media_not_forced :
  ~ (exists bus, bus <> "ide"
       /\ forall (d : LibvirtDomain) (ds device : string),
            distro d = Some ds -> String.prefix "esxi" ds = true ->
            disk_bus d device = Return bus).
Proof.
  intros (bus & Hne & H).
  specialize (H (LibvirtDomain_init (Sample.vm "a" {["distro" := "esxi-6.7"]} []))
                "esxi-6.7" "cdrom" eq_refl eq_refl).
  vm_compute in H. by injection H as <-.
Qed.

Lemma device_names_lookup k c :
  letters !! k = Some c -> device_names !! k = Some (device_name_of c).
Proof. intros H. unfold device_names. by rewrite list_lookup_fmap, H. Qed.

Lemma device_names_length : length device_names = 26%nat.
Proof. reflexivity. Qed.

Lemma disk_bus_same_metadata d d' device :
  vir_metadata (dom d') = vir_metadata (dom d) ->
  disk_bus d' device = disk_bus d device.
Proof. intros H. unfold disk_bus, distro, get_metadata. by rewrite H. Qed.

(** One call of [attachDisk] on a domain that has handed out [k] names. *)
Lemma attachDisk_at k d volume device disk_type :
  pool_at k d ->
  match disk_bus d device with
  | Raise e => attachDisk d volume device disk_type = Raise e
  | Return _ =>
      match letters !! k with
      | Some c =>
          exists d',
            attachDisk d volume device disk_type = Return (device_name_of c, d')
            /\ pool_at (S k) d'
            /\ vir_metadata (dom d') = vir_metadata (dom d)
      | None => attachDisk d volume device disk_type = Raise IndexError
      end
  end.
Proof.
  intros Hpool. unfold attachDisk.
  destruct (disk_bus d device) as [bus|e]; [|done]. cbn [bind].
  pose proof (getNextBlckDevice_at _ _ Hpool) as Hnext.
  destruct (letters !! k) as [c|].
  - destruct Hnext as (d1 & Hnext & Hp & Hdom). rewrite Hnext. cbn [bind fst snd].
    eexists. split; [reflexivity|]. split.
    + destruct Hp as [[? _]|Hp]; [done|]. by right.
    + simpl. by rewrite Hdom.
  - by rewrite Hnext.
Qed.

(** The names a sequence of calls returns are the device names from the
    current slot on, without a gap. *)
Lemma attach_all_names reqs : forall k d,
  pool_at k d ->
  exists m, returned_names (fst (attach_all d reqs)) = take m (drop k device_names).
Proof.
  induction reqs as [|[[volume device] disk_type] rest IH]; intros k d Hpool.
  { by exists O. }
  simpl. pose proof (attachDisk_at k d volume device disk_type Hpool) as Hat.
  destruct (disk_bus d device) as [bus|e].
  - destruct (letters !! k) as [c|] eqn:Hk.
    + destruct Hat as (d' & -> & Hp & _). simpl.
      destruct (IH _ _ Hp) as [m ->]. exists (S m).
      by rewrite (drop_S _ _ _ (device_names_lookup _ _ Hk)).
    + rewrite Hat. simpl. by apply IH.
  - rewrite Hat. simpl. by apply IH.
Qed.

(** When the bus choice of every request succeeds, the first calls
    return the device names in order and every call after the last name
    raises [IndexError]. *)
Lemma attach_all_results reqs : forall k d,
  pool_at k d ->
  Forall (fun req => returns (disk_bus d (snd (fst req))) = true) reqs ->
  fst (attach_all d reqs)
  = ((Return <$> take (length reqs) (drop k device_names))
     ++ replicate (length reqs - (26 - k)) (Raise IndexError))%list.
Proof.
  induction reqs as [|[[volume device] disk_type] rest IH];
    intros k d Hpool Hbus; [done|].
  apply Forall_cons in Hbus as [Hhead Hrest]. simpl in Hhead.
  simpl. pose proof (attachDisk_at k d volume device disk_type Hpool) as Hat.
  destruct (disk_bus d device) as [bus|e]; [|done].
  destruct (letters !! k) as [c|] eqn:Hk.
  - destruct Hat as (d' & -> & Hp & Hmeta). simpl.
    rewrite (IH _ _ Hp).
    + rewrite (drop_S _ _ _ (device_names_lookup _ _ Hk)). simpl.
      apply lookup_lt_Some in Hk. change (length letters) with 26%nat in Hk.
      do 3 f_equal. lia.
    + eapply Forall_impl; [exact Hrest|]. intros req Hreq.
      by rewrite (disk_bus_same_metadata d d').
  - rewrite Hat. simpl. rewrite (IH _ _ Hpool Hrest).
    apply lookup_ge_None in Hk. change (length letters) with 26%nat in Hk.
    rewrite !drop_ge by (rewrite device_names_length; lia).
    rewrite !take_nil. simpl.
    replace (length rest - (26 - k))%nat with (length rest) by lia.
    replace (26 - k)%nat with O by lia. done.
Qed.

Lemma device_names_sorted :
  StronglySorted (fun a b => String.ltb a b = true) device_names.
Proof. repeat (constructor; [|repeat constructor]). constructor. Qed.

Lemma returned_names_all_return (rs : list (result string)) (l : list string) :
  rs = Return <$> l -> returned_names rs = l.
Proof.
  intros ->. unfold returned_names.
  induction l as [|x l IH]; [done|]. cbn. f_equal. exact IH.
Qed.

(** C8: on a fresh domain, whatever the sequence of [attachDisk]
    requests (volume, device role and type), the names that the calls
    return are, in call order, the device names [vda], [vdb], ... from the
    first slot on without a gap, hence in strictly ascending order; and
    when no call raises, the i-th call returns the i-th name. *)
Theorem attachDisk_names_ascending (d : LibvirtDomain)
    (reqs : list (string * string * string)) :
  blockdev d = None ->
  let rs := fst (attach_all d reqs) in
  let names := returned_names rs in
  names = take (length names) device_names
  /\ StronglySorted (fun a b => String.ltb a b = true) names
  /\ device_names !! 0%nat = Some "vda"
  /\ device_names !! 1%nat = Some "vdb"
  /\ (Forall (fun r => returns r = true) rs ->
        rs = Return <$> take (length reqs) device_names).
Proof.
  intros Hfresh rs names.
  assert (pool_at 0 d) as Hpool by (by left).
  destruct (attach_all_names reqs 0%nat d Hpool) as [m Hm].
  rewrite drop_0 in Hm. fold rs in Hm. fold names in Hm.
  assert (names = take (length names) device_names) as Hprefix.
  { rewrite Hm, length_take.
    destruct (Nat.le_gt_cases m (length device_names)) as [Hle|Hgt].
    - by rewrite Nat.min_l.
    - rewrite Nat.min_r by lia. by rewrite !take_ge by lia. }
  split_and!; try done.
  - rewrite Hprefix.
    pose proof device_names_sorted as Hs.
    rewrite <- (take_drop (length names) device_names) in Hs.
    by apply StronglySorted_app_1_l in Hs.
  - intros Hall.
    assert (length rs = length reqs) as Hlen.
    { subst rs. clear. revert d.
      induction reqs as [|[[v dev] ty] rest IH]; intros d; [done|].
      simpl. destruct (attachDisk d v dev ty) as [[nm d1]|e]; simpl;
        by rewrite IH. }
    assert (rs = Return <$> names) as Hrs.
    { subst names. clear -Hall. induction Hall as [|r rs' Hr _ IH]; [done|].
      destruct r as [x|e]; [|done]. rewrite IH at 1. reflexivity. }
    rewrite Hrs at 1. f_equal. rewrite Hprefix. f_equal.
    rewrite <- Hlen, Hrs. by rewrite length_fmap.
Qed.

(** C10: the pool of a domain holds the 26 names [vda] to [vdz],
    pairwise distinct; of 27 [attachDisk] calls on a fresh domain whose
    bus choice succeeds, the first 26 return these names and the 27th
    raises [IndexError]. *)
Theorem attachDisk_pool_exhausted (d : LibvirtDomain)
    (reqs : list (string * string * string)) :
  blockdev d = None ->
  Forall (fun req => returns (disk_bus d (snd (fst req))) = true) reqs ->
  length reqs = 27%nat ->
  let rs := fst (attach_all d reqs) in
  take 26 rs = Return <$> device_names
  /\ rs !! 26%nat = Some (Raise IndexError)
  /\ NoDup device_names
  /\ length device_names = 26%nat.
Proof.
  intros Hfresh Hbus Hlen rs.
  assert (pool_at 0 d) as Hpool by (by left).
  pose proof (attach_all_results reqs 0%nat d Hpool Hbus) as Hrs.
  fold rs in Hrs. rewrite Hlen, drop_0 in Hrs.
  rewrite take_ge in Hrs by (rewrite device_names_length; lia).
  split_and!.
  - rewrite Hrs. rewrite take_app_length'; [done|].
    by rewrite length_fmap, device_names_length.
  - rewrite Hrs. rewrite lookup_app_r;
      rewrite length_fmap, device_names_length; [done | lia].
  - apply (bool_decide_unpack _). vm_compute. exact I.
  - reflexivity.
Qed.

(** ** The host tables *)

Section DeletePass.

Context {A : Type} `{EqDecision A}.

(** The entry deleted was in the table, once more than afterwards;
    the entries a filter keeps are untouched when it drops [x]. *)
Lemma delete_first_elem (x : A) (t : list A) :
  x ∈ t ->
  exists t1, delete_first x t = Some t1
             /\ t ≡ₚ x :: t1
             /\ forall (K : A -> Prop) (dec : forall y, Decision (K y)),
                  ~ K x -> filter K t1 = filter K t.
Proof.
  induction t as [|y t IH]; [by inversion 1|]. intros Hx. simpl.
  destruct (decide (x = y)) as [<-|Hne].
  - exists t. split_and!; try done. intros K ? HK.
    by rewrite filter_cons_False.
  - apply elem_of_cons in Hx as [?|Hx]; [done|].
    destruct (IH Hx) as (t1 & -> & Hperm & Hfilter). simpl.
    exists (y :: t1). split_and!; try done.
    + by rewrite Hperm, Permutation_swap.
    + intros K ? HK. rewrite !filter_cons, (Hfilter K _ HK). done.
Qed.

Context (update : A -> virNetwork -> result virNetwork)
        (table : virNetwork -> list A)
        (with_table : virNetwork -> list A -> virNetwork).

Hypothesis update_delete : forall x n,
  update x n = match delete_first x (table n) with
               | Some t => Return (with_table n t)
               | None => Raise libvirtError
               end.
Hypothesis table_with : forall n t, table (with_table n t) = t.
Hypothesis with_with : forall n t t',
  with_table (with_table n t) t' = with_table n t'.
Hypothesis with_same : forall n, with_table n (table n) = n.

(** A removal pass whose found hosts cover, entry for entry, the
    entries of the live table that are not to be kept succeeds and
    leaves exactly the entries to keep, in their order. *)
Lemma delete_hosts_filter (skip : A -> bool) (K : A -> Prop)
    `{!forall y, Decision (K y)} (found : list A) : forall n,
  (forall x, x ∈ found -> skip x = bool_decide (K x)) ->
  filter (fun x => ~ K x) found ≡ₚ filter (fun x => ~ K x) (table n) ->
  delete_hosts skip update found n = Return (with_table n (filter K (table n))).
Proof.
  induction found as [|x rest IH]; intros n Hskip Hperm.
  - simpl. rewrite filter_nil in Hperm. symmetry in Hperm.
    apply Permutation_nil_r in Hperm.
    assert (filter K (table n) = table n) as ->; [|by rewrite with_same].
    induction (table n) as [|y t IHt]; [done|].
    destruct (decide (K y)) as [Hy|Hy].
    + rewrite filter_cons_True by done. f_equal. apply IHt.
      by rewrite filter_cons_False in Hperm by tauto.
    + by rewrite filter_cons_True in Hperm.
  - simpl. rewrite (Hskip x) by (by left).
    assert (forall y, y ∈ rest -> skip y = bool_decide (K y)) as Hrest.
    { intros y Hy. apply Hskip. by right. }
    case_bool_decide as Hx.
    + apply IH; [done|]. by rewrite filter_cons_False in Hperm by tauto.
    + rewrite filter_cons_True in Hperm by done.
      assert (x ∈ table n) as Hin.
      { assert (x ∈ filter (fun x => ~ K x) (table n)) as Hf.
        { rewrite <- Hperm. by left. }
        by apply list_elem_of_filter in Hf as [_ ?]. }
      destruct (delete_first_elem x (table n) Hin) as (t1 & Hdel & Hp & Hf).
      rewrite update_delete, Hdel. simpl.
      rewrite IH; [| done |].
      * rewrite table_with, with_with. by rewrite (Hf K _ Hx).
      * rewrite table_with.
        rewrite Hp, filter_cons_True in Hperm by done.
        by apply Permutation_cons_inv in Hperm.
Qed.

End DeletePass.

Definition with_dns_hosts (n : virNetwork) (t : list DnsHost) : virNetwork :=
  {| dns_hosts := t; dhcp_hosts := dhcp_hosts n |}.

Definition with_dhcp_hosts (n : virNetwork) (t : list DhcpHost) : virNetwork :=
  {| dns_hosts := dns_hosts n; dhcp_hosts := t |}.

Lemma update_dns_host_delete x n :
  update_dns_host VIR_NETWORK_UPDATE_COMMAND_DELETE x n
  = match delete_first x (dns_hosts n) with
    | Some t => Return (with_dns_hosts n t)
    | None => Raise libvirtError
    end.
Proof. unfold update_dns_host. simpl. by destruct (delete_first _ _). Qed.

Lemma update_dhcp_host_delete x n :
  update_dhcp_host VIR_NETWORK_UPDATE_COMMAND_DELETE x n
  = match delete_first x (dhcp_hosts n) with
    | Some t => Return (with_dhcp_hosts n t)
    | None => Raise libvirtError
    end.
Proof. unfold update_dhcp_host. simpl. by destruct (delete_first _ _). Qed.

Lemma filter_filter_implied {A} (P Q : A -> Prop)
    `{!forall x, Decision (P x)} `{!forall x, Decision (Q x)} (l : list A) :
  (forall x, P x -> Q x) -> filter P (filter Q l) = filter P l.
Proof.
  intros HPQ. induction l as [|x l IH]; [done|].
  destruct (decide (Q x)) as [Hq|Hq].
  - rewrite (filter_cons_True Q) by done. by rewrite !filter_cons, IH.
  - rewrite (filter_cons_False Q) by done. rewrite IH.
    rewrite filter_cons_False; [done|]. intros Hp. by apply Hq, HPQ.
Qed.

Lemma filter_none {A} (P Q : A -> Prop)
    `{!forall x, Decision (P x)} `{!forall x, Decision (Q x)} (l : list A) :
  (forall x, P x -> ~ Q x) -> filter P (filter Q l) = [].
Proof.
  intros HPQ. induction l as [|x l IH]; [done|].
  destruct (decide (Q x)) as [Hq|Hq].
  - rewrite (filter_cons_True Q) by done.
    rewrite filter_cons_False; [done|]. intros Hp. by apply (HPQ x).
  - by rewrite (filter_cons_False Q).
Qed.

(** The first pass leaves the DNS entries of other addresses. *)
Lemma delete_dns_for_ip ipstr n :
  delete_hosts
    (fun host => negb (bool_decide (dns_ip host = Some ipstr)))
    (update_dns_host VIR_NETWORK_UPDATE_COMMAND_DELETE)
    (filter (fun x => has_attr dns_ip x) (dns_hosts n)) n
  = Return (with_dns_hosts n
              (filter (fun e => dns_ip e <> Some ipstr) (dns_hosts n))).
Proof.
  apply (delete_hosts_filter _ dns_hosts with_dns_hosts
           update_dns_host_delete); try done.
  - by intros [].
  - intros x _. by rewrite bool_decide_not.
  - rewrite filter_filter_implied; [done|].
    intros x Hx. apply dec_stable in Hx. unfold has_attr.
    apply bool_decide_pack. by rewrite Hx.
Qed.

(** The second pass leaves the DHCP entries of other addresses. *)
Lemma delete_dhcp_for_ip ipstr n :
  delete_hosts
    (fun host => negb (bool_decide (dhcp_ip host = Some ipstr)))
    (update_dhcp_host VIR_NETWORK_UPDATE_COMMAND_DELETE)
    (filter (fun x => has_attr dhcp_ip x) (dhcp_hosts n)) n
  = Return (with_dhcp_hosts n
              (filter (fun e => dhcp_ip e <> Some ipstr) (dhcp_hosts n))).
Proof.
  apply (delete_hosts_filter _ dhcp_hosts with_dhcp_hosts
           update_dhcp_host_delete); try done.
  - by intros [].
  - intros x _. by rewrite bool_decide_not.
  - rewrite filter_filter_implied; [done|].
    intros x Hx. apply dec_stable in Hx. unfold has_attr.
    apply bool_decide_pack. by rewrite Hx.
Qed.

(** The third pass leaves the DHCP entries of other MAC addresses. *)
Lemma delete_dhcp_for_macs (macs : list string) n :
  delete_hosts
    (fun host => negb (bool_decide (default "" (dhcp_mac host) ∈ macs)))
    (update_dhcp_host VIR_NETWORK_UPDATE_COMMAND_DELETE)
    (filter (fun x => has_attr dhcp_mac x) (dhcp_hosts n)) n
  = Return (with_dhcp_hosts n
              (filter (fun e => dhcp_mac e ∉ Some <$> macs) (dhcp_hosts n))).
Proof.
  apply (delete_hosts_filter _ dhcp_hosts with_dhcp_hosts
           update_dhcp_host_delete); try done.
  - by intros [].
  - intros x Hx. apply list_elem_of_filter in Hx as [Hx _].
    unfold has_attr in Hx. apply bool_decide_unpack in Hx as [m Hm].
    rewrite Hm. simpl. rewrite <- bool_decide_not. apply bool_decide_ext.
    rewrite list_elem_of_fmap. split.
    + intros Hn (m' & [= <-] & ?). done.
    + intros Hn Hin. apply Hn. by exists m.
  - rewrite filter_filter_implied; [done|].
    intros x Hx. apply dec_stable in Hx. unfold has_attr.
    apply bool_decide_pack. apply list_elem_of_fmap in Hx as (m & -> & _).
    by eexists.
Qed.

Section NetworkProperties.

Context (v4 : string -> option IPv4Interface)
        (HOST : DnsHost) (DHCP : DhcpHost).

(** From any state of the two tables, retracting and registering
    succeeds: the entries of the address and of the MAC addresses are
    gone, the other entries stay, and the fresh entries are in front. *)
Lemma start_network_tables h domain i4 mac macs :
  ipv4 v4 domain = Return (Some i4) ->
  mac_addresses domain = mac :: macs ->
  start_network v4 HOST DHCP h domain
  = Return (set_network_obj h
      {| dns_hosts :=
           dns_entry_of HOST domain i4
           :: filter (fun e => dns_ip e <> Some (exploded (ip i4)))
                (dns_hosts (network_obj h));
         dhcp_hosts :=
           dhcp_entry_of DHCP mac i4
           :: filter (fun e => dhcp_mac e ∉ Some <$> mac :: macs)
                (filter (fun e => dhcp_ip e <> Some (exploded (ip i4)))
                   (dhcp_hosts (network_obj h))) |}).
Proof.
  intros Hip Hmac. unfold start_network, remove_domain_from_network.
  rewrite Hip. cbn [bind].
  rewrite delete_dns_for_ip. cbn [bind].
  rewrite delete_dhcp_for_ip. cbn [bind].
  rewrite Hmac, delete_dhcp_for_macs. cbn [bind].
  unfold add_domain_to_network. rewrite Hip, Hmac. reflexivity.
Qed.

(** C6: for a domain with an address and at least one MAC address, the
    retract-then-register sequence of [start], run twice in succession
    from any state of the network, succeeds both times and leaves one
    DNS entry for the address and one DHCP entry naming the address or
    any MAC address of the domain: the entries just registered. *)
Theorem start_network_twice_single_entries
    (h : LibvirtHypervisor) (domain : LibvirtDomain)
    (i4 : IPv4Interface) (mac : string) (macs : list string) :
  ipv4 v4 domain = Return (Some i4) ->
  mac_addresses domain = mac :: macs ->
  exists h1 h2,
    start_network v4 HOST DHCP h domain = Return h1
    /\ start_network v4 HOST DHCP h1 domain = Return h2
    /\ dns_entries_for (exploded (ip i4)) (network_obj h2)
       = [dns_entry_of HOST domain i4]
    /\ dhcp_entries_for (exploded (ip i4)) (mac_addresses domain)
         (network_obj h2)
       = [dhcp_entry_of DHCP mac i4].
Proof.
  intros Hip Hmac. eexists. eexists.
  split; [by apply start_network_tables|].
  split; [by apply start_network_tables|].
  unfold dns_entries_for, dhcp_entries_for. rewrite Hmac.
  cbn [network_obj set_network_obj dns_hosts dhcp_hosts]. split.
  - rewrite filter_cons_True by reflexivity. f_equal.
    apply filter_none. intros x Hx Hq. by apply Hq.
  - rewrite filter_cons_True by (left; reflexivity). f_equal.
    rewrite (list_filter_filter _ _
               (dhcp_entry_of DHCP mac i4 :: _)).
    apply filter_none. intros x [Hx|Hx] [Hm Hi]; [by apply Hi | by apply Hm].
Qed.

End NetworkProperties.

(** ** The config-drive network document *)

Section NetworkDocument.

Context (v4 : string -> option IPv4Interface) (uuid4 : nat -> string).

Lemma links_of_length (macs : list string) :
  length (links_of macs) = length macs.
Proof. unfold links_of. apply length_imap. Qed.

(** C9: for a domain with a primary address and the one additional
    address ["dhcp"], the document of
    [generate_openstack_network_config] has a link per MAC address and
    two network entries: the static one with the address, the netmask
    and the default route through the gateway, then one of type
    [ipv4_dhcp] on the second interface with no address of its own. *)
Theorem generate_openstack_network_config_dhcp
    (h : LibvirtHypervisor) (domain : LibvirtDomain) (i4 : IPv4Interface) :
  ipv4 v4 domain = Return (Some i4) ->
  additional_ipv4 domain = [Some "dhcp"] ->
  exists links,
    length links = length (mac_addresses domain)
    /\ generate_openstack_network_config v4 uuid4 h domain
       = Return (PDict
           [("links", PList links);
            ("networks",
             PList
               [PDict
                  [("id", PStr "private-ipv4");
                   ("type", PStr "ipv4");
                   ("link", PStr "interface0");
                   ("ip_address", PStr (exploded (ip i4)));
                   ("netmask", PStr (exploded (netmask (network h))));
                   ("routes",
                    PList [PDict [("network", PStr "0.0.0.0");
                                  ("netmask", PStr "0.0.0.0");
                                  ("gateway",
                                   PStr (exploded (ip (gateway h))))]]);
                   ("network_id",
                    PStr "da5bb487-5193-4a65-a3df-4a0055a8c0d7")];
                PDict
                  [("id", PStr "private-ipv4-0");
                   ("type", PStr "ipv4_dhcp");
                   ("link", PStr "interface1");
                   ("network_id",
                    PStr "da5bb487-5193-4a65-a3df-4a0055a8c0d7")]]);
            ("services",
             PList [PDict [("type", PStr "dns");
                           ("address", PStr (exploded (ip (dns h))))]])]).
Proof.
  intros Hip Hadd. exists (links_of (mac_addresses domain)).
  split; [apply links_of_length|].
  unfold generate_openstack_network_config. rewrite Hadd, Hip.
  reflexivity.
Qed.

End NetworkDocument.

(** * The statements at sample values *)

Lemma get_free_ipv4_first_two_calls_witness :
  let h := Sample.fresh_session in
  let h1 := set_last_free_ipv4 h Sample.i5 in
  Forall (fun d => vir_metadata d !! "ipv4" = None) (conn_domains h)
  /\ get_free_ipv4 Sample.IPv4Interface_of_str Sample.IPv6Interface_of_str h
     = Return (Some Sample.i5, h1)
  /\ conn_domains h1 = conn_domains h
  /\ get_free_ipv4 Sample.IPv4Interface_of_str Sample.IPv6Interface_of_str h1
     = Return (Some Sample.i6, set_last_free_ipv4 h1 Sample.i6).
Proof.
  intros h h1.
  assert (Forall (fun d => vir_metadata d !! "ipv4" = None) (conn_domains h))
    as Hdoms by (repeat constructor).
  split; [exact Hdoms|].
  apply (get_free_ipv4_first_two_calls Sample.IPv4Interface_of_str
           Sample.IPv6Interface_of_str h);
    [reflexivity | reflexivity | reflexivity | exact Hdoms].
Defined.

Lemma get_free_ipv4_avoids_used_witness :
  let h := Sample.session in
  let v4 := Sample.IPv4Interface_of_str in
  let v6 := Sample.IPv6Interface_of_str in
  get_free_ipv4 v4 v6 h = Return (Some Sample.i6, set_last_free_ipv4 h Sample.i6)
  /\ ip Sample.i6 <> ip (gateway h)
  /\ (forall d s itf,
        d ∈ conn_domains h -> vir_metadata d !! "ipv4" = Some s -> s <> "" ->
        ip_interface v4 v6 s = Return itf ->
        interface_ip itf <> IPv4Address (ip Sample.i6))
  /\ 5 <= ip Sample.i6 mod 256.
Proof.
  intros h v4 v6.
  assert (get_free_ipv4 v4 v6 h
          = Return (Some Sample.i6, set_last_free_ipv4 h Sample.i6)) as H
    by (vm_compute; reflexivity).
  split; [exact H|].
  exact (get_free_ipv4_avoids_used v4 v6 h _ Sample.i6 H).
Defined.

Lemma merged_config_truthy_later_layer_wins_witness :
  let d := Sample.fedora in
  merged_config "root" Sample.upstream_yaml d Sample.user_config !! "memory"
  = Some (PInt 1024)
  /\ merged_config "root" Sample.upstream_yaml d Sample.user_config !! "groups"
     = Some (PList [PStr "wheel"]).
Proof.
  intros d. split.
  - apply (merged_config_truthy_later_layer_wins "root" Sample.upstream_yaml
             d Sample.user_config "memory" (PInt 768) (PInt 1024) (PInt 0));
      vm_compute; reflexivity.
  - apply (merged_config_truthy_later_layer_wins "root" Sample.upstream_yaml
             d Sample.user_config "groups" (PList []) (PList [])
             (PList [PStr "wheel"]));
      vm_compute; reflexivity.
Defined.

Lemma set_username_login_names_witness :
  ends_with_newline "alice-2" = false
  /\ login_name "alice-2" = true
  /\ returns (set_username Sample.fedora "alice-2") = true
  /\ login_name "-a" = false
  /\ set_username Sample.fedora "-a" = Raise (Exception "Invalid username: " "-a").
Proof.
  split; [reflexivity|]. split; [reflexivity|].
  destruct (set_username_login_names Sample.fedora "alice-2" eq_refl)
    as (_ & _ & Halice & _).
  destruct (set_username_login_names Sample.fedora "-a" eq_refl)
    as (_ & Hraise & _).
  split; [exact Halice|]. split; [reflexivity|]. exact (Hraise eq_refl).
Defined.

Lemma start_network_twice_single_entries_witness :
  let v4 := Sample.IPv4Interface_of_str in
  let d := Sample.two_nics in
  ipv4 v4 d = Return (Some Sample.i5)
  /\ exists h1 h2,
       start_network v4 Sample.HOST Sample.DHCP Sample.stale_session d = Return h1
       /\ start_network v4 Sample.HOST Sample.DHCP h1 d = Return h2
       /\ dns_entries_for "192.0.2.5" (network_obj h2)
          = [{| dns_ip := Some "192.0.2.5"; hostnames := ["b"] |}]
       /\ dhcp_entries_for "192.0.2.5" (mac_addresses d) (network_obj h2)
          = [{| dhcp_mac := Some "52:54:00:00:00:05"; dhcp_name := None;
                dhcp_ip := Some "192.0.2.5" |}].
Proof.
  intros v4 d.
  assert (ipv4 v4 d = Return (Some Sample.i5)) as Hip by (vm_compute; reflexivity).
  split; [exact Hip|].
  exact (start_network_twice_single_entries v4 Sample.HOST Sample.DHCP
           Sample.stale_session d Sample.i5 "52:54:00:00:00:05"
           ["52:54:00:00:00:15"] Hip eq_refl).
Defined.

Lemma attachDisk_bus_witness :
  let d := Sample.esxi in
  let d1 := match attachDisk d "e-cidata.qcow2" "cdrom" "raw" with
            | Return r => snd r
            | Raise _ => d
            end in
  attachDisk d "e-cidata.qcow2" "cdrom" "raw" = Return ("vda", d1)
  /\ exists x,
       vir_disks (dom d1) = (vir_disks (dom d) ++ [x])%list
       /\ target_dev x = "vda"
       /\ disk_device x = "cdrom"
       /\ target_bus x = "ide".
Proof.
  intros d d1.
  assert (attachDisk d "e-cidata.qcow2" "cdrom" "raw" = Return ("vda", d1))
    as H by (vm_compute; reflexivity).
  split; [exact H|].
  exact (attachDisk_bus d d1 "e-cidata.qcow2" "cdrom" "raw" "vda" H).
Defined.

Lemma attachDisk_names_ascending_witness :
  let d := Sample.fedora in
  let rs := fst (attach_all d Sample.seed_then_root) in
  blockdev d = None
  /\ rs = [Return "vda"; Return "vdb"]
  /\ returned_names rs = take (length (returned_names rs)) device_names
  /\ StronglySorted (fun a b => String.ltb a b = true) (returned_names rs).
Proof.
  intros d rs.
  destruct (attachDisk_names_ascending d Sample.seed_then_root eq_refl)
    as (Hprefix & Hsorted & _ & _ & Hall).
  split; [reflexivity|]. split; [|split; [exact Hprefix | exact Hsorted]].
  apply Hall. repeat constructor.
Defined.

Lemma generate_openstack_network_config_dhcp_witness :
  let v4 := Sample.IPv4Interface_of_str in
  let d := Sample.two_nics in
  ipv4 v4 d = Return (Some Sample.i5)
  /\ additional_ipv4 d = [Some "dhcp"]
  /\ exists doc links nets services,
       generate_openstack_network_config v4 (fun _ => "") Sample.session d
       = Return doc
       /\ doc = PDict [("links", PList links); ("networks", PList nets);
                       ("services", services)]
       /\ length links = 2%nat /\ length nets = 2%nat.
Proof.
  intros v4 d.
  assert (ipv4 v4 d = Return (Some Sample.i5)) as Hip by (vm_compute; reflexivity).
  split; [exact Hip|]. split; [reflexivity|].
  destruct (generate_openstack_network_config_dhcp v4 (fun _ => "")
              Sample.session d Sample.i5 Hip eq_refl) as (links & Hlen & Hdoc).
  eexists. exists links. eexists. eexists.
  split; [exact Hdoc|]. split; [reflexivity|]. split; [exact Hlen | reflexivity].
Defined.

Lemma attachDisk_pool_exhausted_witness :
  let d := Sample.fedora in
  let reqs := replicate 27 ("f.qcow2", "disk", "qcow2") in
  let rs := fst (attach_all d reqs) in
  blockdev d = None
  /\ length reqs = 27%nat
  /\ take 26 rs = Return <$> device_names
  /\ rs !! 26%nat = Some (Raise IndexError)
  /\ NoDup device_names
  /\ length device_names = 26%nat.
Proof.
  intros d reqs rs. split; [reflexivity|]. split; [reflexivity|].
  apply (attachDisk_pool_exhausted d reqs eq_refl); [|reflexivity].
  repeat (constructor; [reflexivity|]). constructor.
Defined.

(** * Further properties *)

(** ** The allocator: first fit, exhaustion, malformed metadata *)

Section AllocatorFurther.

Context (v4 : string -> option IPv4Interface)
        (v6 : string -> option IPv6Interface).

Lemma skipped_step last used a rest :
  skipped last used a ->
  scan_network last used (a :: rest) = scan_network last used rest.
Proof.
  intros Hs. rewrite scan_network_cons, last_octet. cbv zeta.
  destruct (Z.ltb_spec (a mod 256) 5) as [|Hge]; [done|].
  destruct Hs as [Hs|[(l & -> & Hl)|Hs]].
  { lia. }
  { by rewrite Hl. }
  destruct (match last with
            | Some l => interface_ge l {| ip := a; prefixlen := 24 |}
            | None => false
            end); [done|].
  by rewrite bool_decide_true.
Qed.

Lemma not_skipped_step last used a rest :
  ~ skipped last used a ->
  scan_network last used (a :: rest) = Some {| ip := a; prefixlen := 24 |}.
Proof.
  intros Hs. rewrite scan_network_cons, last_octet. cbv zeta.
  destruct (Z.ltb_spec (a mod 256) 5) as [Hlt|Hge].
  { exfalso. apply Hs. by left. }
  destruct last as [l|].
  - destruct (interface_ge l {| ip := a; prefixlen := 24 |}) eqn:Hl.
    { exfalso. apply Hs. right. left. by exists l. }
    rewrite bool_decide_false; [done|]. intros Hin. apply Hs. by right; right.
  - rewrite bool_decide_false; [done|]. intros Hin. apply Hs. by right; right.
Qed.

Lemma skipped_dec last used a : skipped last used a \/ ~ skipped last used a.
Proof.
  destruct (Z.ltb_spec (a mod 256) 5) as [Hlt|Hge]; [by left; left|].
  destruct (decide (IPv4Address a ∈ interface_ip <$> used)) as [Hin|Hin];
    [by left; right; right|].
  destruct last as [l|].
  - destruct (interface_ge l {| ip := a; prefixlen := 24 |}) eqn:Hl.
    + left. right. left. by exists l.
    + right. intros [?|[(l' & [= <-] & Hl')|?]]; [lia | congruence | done].
  - right. intros [?|[(l' & ? & _)|?]]; [lia | done | done].
Qed.

(** The scan stops at the first address that is not skipped. *)
Lemma scan_network_first_fit last used ips :
  match scan_network last used ips with
  | Some i =>
      prefixlen i = 24
      /\ ~ skipped last used (ip i)
      /\ exists pre post,
           ips = (pre ++ ip i :: post)%list /\ Forall (skipped last used) pre
  | None => Forall (skipped last used) ips
  end.
Proof.
  induction ips as [|a rest IH]; [by constructor|].
  destruct (skipped_dec last used a) as [Hs|Hs].
  - rewrite skipped_step by done.
    destruct (scan_network last used rest) as [i|].
    + destruct IH as (Hp & Hn & pre & post & -> & Hpre).
      split_and!; try done. exists (a :: pre), post. split; [done|].
      by constructor.
    + by constructor.
  - rewrite not_skipped_step by done. simpl. split_and!; try done.
    exists [], rest. split; [done | constructor].
Qed.

(** X1: the address [get_free_ipv4] returns is the first one, in the order
    of the network, that passes the three filters; it comes back as a
    /24 interface whatever the prefix of the network, and it becomes the
    cursor of the session. *)
Theorem get_free_ipv4_first_fit (h h' : LibvirtHypervisor) (i : IPv4Interface) :
  get_free_ipv4 v4 v6 h = Return (Some i, h') ->
  prefixlen i = 24
  /\ h' = set_last_free_ipv4 h i
  /\ exists used pre post,
       collect_used_ips v4 v6 [V4 (gateway h)] (list_domains h) = Return used
       /\ iter (network h) = (pre ++ ip i :: post)%list
       /\ Forall (skipped (_last_free_ipv4 h) used) pre
       /\ ~ skipped (_last_free_ipv4 h) used (ip i).
Proof.
  unfold get_free_ipv4. intros H.
  destruct (collect_used_ips v4 v6 [V4 (gateway h)] (list_domains h))
    as [used|] eqn:Hused; simpl in H; [|discriminate].
  pose proof (scan_network_first_fit (_last_free_ipv4 h) used (iter (network h)))
    as Hfit.
  destruct (scan_network _ used _) as [j|]; [|discriminate].
  injection H as -> <-. destruct Hfit as (Hp & Hn & pre & post & Hiter & Hpre).
  split_and!; try done. by exists used, pre, post.
Qed.

(** X2: there is no wrap-around. Once the cursor stands on the last
    address of the network or beyond, a call that returns gives [None]
    and leaves the session as it was, whatever addresses lie free below
    the cursor. *)
Theorem get_free_ipv4_no_wraparound (h : LibvirtHypervisor) (l : IPv4Interface) :
  0 <= network_address (network h) ->
  network_address (network h) + num_addresses (network h) <= 2 ^ 32 ->
  _last_free_ipv4 h = Some l ->
  prefixlen l = 24 ->
  network_address (network h) + num_addresses (network h) - 1 <= ip l < 2 ^ 32 ->
  returns (get_free_ipv4 v4 v6 h) = true ->
  get_free_ipv4 v4 v6 h = Return (None, h).
Proof.
  intros HB Htop Hlast Hl Hip Hret. unfold get_free_ipv4 in *.
  destruct (collect_used_ips v4 v6 [V4 (gateway h)] (list_domains h))
    as [used|]; simpl in *; [|discriminate].
  pose proof (scan_network_first_fit (_last_free_ipv4 h) used (iter (network h)))
    as Hfit.
  destruct (scan_network _ used _) as [j|]; [|done].
  destruct Hfit as (Hp & Hn & pre & post & Hiter & _). exfalso. apply Hn.
  assert (ip j ∈ iter (network h)) as Hin.
  { rewrite Hiter. apply elem_of_app. right. by left. }
  unfold iter in Hin. apply elem_of_seqZ in Hin.
  right. left. exists l. split; [done|].
  rewrite interface_ge_24 by (simpl; first [done | lia]).
  apply negb_true_iff, Z.ltb_ge. simpl. lia.
Qed.

Lemma collect_used_ips_malformed doms : forall used d s,
  d ∈ doms -> get_metadata d "ipv4" = Some s -> s <> "" ->
  v4 s = None -> v6 s = None ->
  collect_used_ips v4 v6 used doms = Raise ValueError.
Proof.
  induction doms as [|d0 rest IH]; intros used d s Hd Hs Hne H4 H6;
    [by inversion Hd|].
  simpl. apply elem_of_cons in Hd as [<-|Hd].
  - rewrite Hs. simpl. destruct (String.eqb_spec s ""); [done|]. simpl.
    unfold ip_interface. by rewrite H4, H6.
  - destruct (negb (str_truthy (get_metadata d0 "ipv4"))); [by eapply IH|].
    destruct (ip_interface v4 v6 (default "" (get_metadata d0 "ipv4")))
      as [itf|e] eqn:Hp; simpl; [by eapply IH|].
    unfold ip_interface in Hp.
    destruct (v4 (default "" (get_metadata d0 "ipv4"))); [done|].
    destruct (v6 (default "" (get_metadata d0 "ipv4"))); [done|].
    by injection Hp as <-.
Qed.

(** X3: one defined domain whose [ipv4] metadata is a non-empty string
    that [ipaddress] refuses makes every allocation fail with
    [ValueError]. *)
Theorem get_free_ipv4_malformed_metadata (h : LibvirtHypervisor)
    (d : virDomain) (s : string) :
  d ∈ conn_domains h -> vir_metadata d !! "ipv4" = Some s -> s <> "" ->
  v4 s = None -> v6 s = None ->
  get_free_ipv4 v4 v6 h = Raise ValueError.
Proof.
  intros Hd Hs Hne H4 H6. unfold get_free_ipv4.
  rewrite (collect_used_ips_malformed _ _ (LibvirtDomain_init d) s); try done.
  unfold list_domains. apply list_elem_of_fmap. by exists d.
Qed.

End AllocatorFurther.

(** ** The merge, key by key *)

(** X4: for any key, present in a layer or not, the merged configuration
    holds the user value if it is truthy, else the distro value if it is
    truthy, else what the defaults hold; so a key the defaults lack
    (such as [ssh_key_file] or [fqdn]) is in the result only with a
    truthy value. *)
Theorem merged_config_lookup (getuser : string)
    (upstream_yaml : option string -> option (option (gmap string pyval)))
    (domain : LibvirtDomain) (user_config : gmap string pyval) (k : string) :
  let pick (layer : gmap string pyval) (below : option pyval) :=
    match layer !! k with
    | Some v => if truthy v then Some v else below
    | None => below
    end in
  merged_config getuser upstream_yaml domain user_config !! k
  = pick user_config
      (pick (get_distro_configuration upstream_yaml (distro domain))
         (default_config getuser !! k))
  /\ (default_config getuser !! k = None ->
      forall v,
        merged_config getuser upstream_yaml domain user_config !! k = Some v ->
        truthy v = true).
Proof.
  intros pick. unfold merged_config. rewrite !merge_layer_lookup.
  split; [done|]. intros Hd v. rewrite Hd.
  destruct (user_config !! k) as [vu|];
    [destruct (truthy vu) eqn:Hu; [by intros [= <-]|]|];
    (destruct (get_distro_configuration upstream_yaml (distro domain) !! k)
       as [vd|]; [destruct (truthy vd) eqn:Hv; [by intros [= <-]|]|]); done.
Qed.

(** ** Groups *)

Lemma split_comma_free (x : string) :
  comma_free x = true -> split "," x = [x].
Proof.
  unfold comma_free. induction x as [|c x IH]; [done|]. simpl.
  rewrite negb_orb. intros [Hc Hx]%andb_prop.
  apply negb_true_iff in Hc. rewrite Hc. by rewrite IH.
Qed.

Lemma split_comma_free_app (x t : string) :
  comma_free x = true ->
  split "," (x +:+ String "," t) = x :: split "," t.
Proof.
  unfold comma_free. induction x as [|c x IH]; [done|].
  change (String c x +:+ String "," t) with (String c (x +:+ String "," t)).
  simpl. rewrite negb_orb. intros [Hc Hx]%andb_prop.
  apply negb_true_iff in Hc. rewrite Hc. by rewrite IH.
Qed.

Lemma split_join (l : list string) :
  Forall (fun s => comma_free s = true) l -> l <> [] ->
  split "," (join "," l) = l.
Proof.
  induction 1 as [|x l Hx Hl IH]; [done|]. intros _.
  destruct l as [|y l]; [by apply split_comma_free|].
  change (join "," (x :: y :: l)) with (x +:+ String "," (join "," (y :: l))).
  rewrite split_comma_free_app by done. by rewrite IH.
Qed.

Lemma join_empty (l : list string) :
  join "," l = "" -> l = [] \/ l = [""].
Proof.
  destruct l as [|x [|y l]].
  - by left.
  - simpl. intros ->. by right.
  - change (join "," (x :: y :: l)) with (x +:+ String "," (join "," (y :: l))).
    by destruct x.
Qed.

Lemma join_xml_safe (l : list string) :
  Forall (fun s => xml_safe s = true) l -> xml_safe (join "," l) = true.
Proof.
  induction 1 as [|x l Hx Hl IH]; [done|].
  destruct l as [|y l]; [done|].
  change (join "," (x :: y :: l)) with (x +:+ String "," (join "," (y :: l))).
  unfold xml_safe in *. rewrite str_forallb_app, Hx. simpl. exact IH.
Qed.

(** X5: the groups written by the [groups] setter are read back as they
    were, provided every group is made of characters that the metadata
    element carries unchanged (printable ASCII without quote, ampersand
    and opening angle bracket), no group contains a comma and the list
    is not the single empty name; that list reads back as empty. *)
Theorem groups_set_groups (d : LibvirtDomain) (l : list string) :
  Forall (fun s => xml_safe s = true) l ->
  Forall (fun s => comma_free s = true) l -> l <> [""] ->
  groups (set_groups d l) = l
  /\ groups (set_groups d [""]) = [].
Proof.
  intros Hsafe Hl Hne. unfold groups, set_groups.
  rewrite !get_metadata_record by (by apply join_xml_safe; repeat constructor).
  split; [|done]. simpl.
  destruct (String.eqb_spec (join "," l) "") as [He|He]; simpl.
  - by destruct (join_empty _ He) as [-> | ->].
  - apply split_join; [done|]. by intros ->.
Qed.

(** ** The SSH key and the user *)

Section KeyProperties.

Context (read_file : string -> option string).

(** X6: on a domain without a [users] directive, loading the key file and
    setting the username give the same domain in either order: the
    user of the cloud-init document carries the key that was read. *)
Theorem load_ssh_key_file_set_username_commute
    (d : LibvirtDomain) (path key u : string) :
  user_data d !! "users" = None ->
  read_file path = Some key ->
  re.match_ false username_pattern u = true ->
  exists d',
    (d1 <- load_ssh_key_file read_file d path ;; set_username d1 u) = Return d'
    /\ (d2 <- set_username d u ;; load_ssh_key_file read_file d2 path) = Return d'
    /\ ssh_key d' = Some key
    /\ exists items rest,
         user_data d' !! "users" = Some (PList (PDict items :: rest))
         /\ dict_get "ssh_authorized_keys" items = Some (PList [PStr key])
         /\ dict_get "name" items = Some (PStr u).
Proof.
  intros Hfresh Hread Hu. eexists. split_and!.
  - unfold load_ssh_key_file. rewrite Hread. cbn [ssh_key _ssh_key set_ssh_key
      set_user_data user_data pyval_of_opt].
    rewrite lookup_insert_ne, Hfresh by done. cbn [bind].
    unfold set_username. rewrite Hu. cbn [negb]. reflexivity.
  - unfold set_username. rewrite Hu. cbn [negb bind].
    unfold load_ssh_key_file. rewrite Hread.
    cbn [ssh_key _ssh_key set_ssh_key set_user_data user_data pyval_of_opt
         record_metadata set_dom].
    rewrite lookup_insert_ne, lookup_insert_eq by done.
    cbn [set_first_user_keys bind]. simpl (dict_set _ _ _). f_equal.
    unfold record_metadata, set_dom, set_user_data, set_ssh_key.
    cbn [dom user_data _ssh_key default_nic_model additional_ipv4 blockdev].
    f_equal.
    rewrite (insert_insert_ne (user_data d) "ssh_authorized_keys" "users")
      by done.
    by rewrite insert_insert_eq.
  - reflexivity.
  - do 2 eexists. cbn [record_metadata set_dom set_user_data user_data].
    rewrite lookup_insert_eq. split_and!; reflexivity.
Qed.

(** X7: a key file that cannot be read makes [load_ssh_key_file] raise,
    and so does a [users] directive that is not a list starting with a
    mapping; with no [users] directive the key is stored and listed
    under [ssh_authorized_keys]. *)
Theorem load_ssh_key_file_cases (d : LibvirtDomain) (path : string) :
  (read_file path = None ->
     load_ssh_key_file read_file d path = Raise (IOError path))
  /\ (forall key,
        read_file path = Some key -> user_data d !! "users" = None ->
        exists d', load_ssh_key_file read_file d path = Return d'
                   /\ ssh_key d' = Some key
                   /\ user_data d' !! "ssh_authorized_keys"
                      = Some (PList [PStr key])
                   /\ dom d' = dom d)
  /\ (forall key users,
        read_file path = Some key -> user_data d !! "users" = Some users ->
        (forall items rest, users <> PList (PDict items :: rest)) ->
        returns (load_ssh_key_file read_file d path) = false).
Proof.
  split_and!.
  - intros Hr. unfold load_ssh_key_file. by rewrite Hr.
  - intros key Hr Hu. unfold load_ssh_key_file. rewrite Hr.
    cbn [ssh_key _ssh_key set_ssh_key set_user_data user_data pyval_of_opt].
    rewrite lookup_insert_ne, Hu by done.
    eexists. split; [reflexivity|].
    cbn [ssh_key _ssh_key set_user_data user_data dom].
    by rewrite lookup_insert_eq.
  - intros key users Hr Hu Hshape. unfold load_ssh_key_file. rewrite Hr.
    cbn [ssh_key _ssh_key set_ssh_key set_user_data user_data pyval_of_opt].
    rewrite lookup_insert_ne, Hu by done.
    destruct users as [| | |[|]|[|[] ?]|]; try done.
    by destruct (Hshape items l).
Qed.

End KeyProperties.

(** ** The validators, newline included *)

Lemma is_newline c : is_char re.newline c = true -> c = re.newline.
Proof. by_ascii_cases c. Qed.

Lemma at_end_iff s :
  re.at_end s = true <-> s = "" \/ s = String re.newline "".
Proof.
  split.
  - intros [->|(c & -> & Hc)]%at_end_cases; [by left|].
    right. by rewrite (is_newline c).
  - by intros [-> | ->].
Qed.

Lemma ends_with_newline_forallb (f : ascii -> bool) (s : string) :
  (forall c, f c = true -> is_char re.newline c = false) ->
  str_forallb f s = true -> ends_with_newline s = false.
Proof.
  intros Hf. induction s as [|c s IH]; [done|]. simpl.
  intros [Hc Hs]%andb_prop. destruct s; [by apply Hf | by apply IH].
Qed.

Lemma login_first_not_newline c :
  is_lower c || is_char "_" c = true -> is_char re.newline c = false.
Proof. by_ascii_cases c. Qed.

Lemma login_char_not_newline c :
  login_char c = true -> is_char re.newline c = false.
Proof. by_ascii_cases c. Qed.

Lemma hostname_char_not_newline c :
  hostname_char c = true -> is_char re.newline c = false.
Proof. by_ascii_cases c. Qed.

Lemma login_name_no_newline s :
  login_name s = true -> ends_with_newline s = false.
Proof.
  destruct s as [|c r]; [done|]. unfold login_name.
  intros [[[Hc Hall]%andb_prop _]%andb_prop _]%andb_prop.
  apply (ends_with_newline_forallb
           (fun x => negb (is_char re.newline x))).
  { intros x. by rewrite negb_true_iff. }
  simpl. rewrite (login_first_not_newline c Hc). simpl.
  clear -Hall. induction r as [|x r IH]; [done|]. simpl in *.
  apply andb_prop in Hall as [Hx Hall].
  by rewrite (login_char_not_newline x Hx), IH.
Qed.

Lemma username_pattern_matches s :
  re.match_ false username_pattern s = true
  <-> with_optional_newline login_name s.
Proof.
  unfold with_optional_newline. split.
  - destruct s as [|c r]; [done|].
    unfold re.match_, username_pattern. cbn [re.match_here].
    rewrite username_first_set. intros [Hc Hm]%andb_prop.
    apply match_repeat_elim in Hm as (pre & post & -> & Hall & Hlo & Hhi & Hk).
    apply andb_prop in Hk as [Hend _].
    rewrite (str_forallb_ext _ _ _ username_rest_set) in Hall.
    assert (login_name (String c pre) = true) as Hname.
    { unfold login_name. rewrite Hc, Hall, !andb_true_l.
      apply andb_true_intro. split.
      - by apply Nat.leb_le.
      - apply Nat.leb_le. by apply Hhi. }
    apply at_end_iff in Hend as [-> | ->].
    + left. by rewrite str_app_nil_r.
    + right. by exists (String c pre).
  - intros [Hs|(s' & -> & Hs)].
    + by rewrite username_pattern_login_name by by apply login_name_no_newline.
    + destruct s' as [|c r]; [done|]. unfold login_name in Hs.
      apply andb_prop in Hs as [[[Hc Hall]%andb_prop Hlo]%andb_prop Hhi].
      change (String c r +:+ String re.newline "")
        with (String c (r +:+ String re.newline "")).
      unfold re.match_, username_pattern. cbn [re.match_here].
      rewrite username_first_set, Hc, andb_true_l.
      apply match_repeat_intro.
      * by rewrite (str_forallb_ext _ _ _ username_rest_set).
      * by apply Nat.leb_le.
      * intros h [= <-]. by apply Nat.leb_le.
      * done.
Qed.

Lemma fqdn_validate_matches s :
  re.match_ true fqdn_validate s = true
  <-> with_optional_newline hostname s.
Proof.
  unfold with_optional_newline, hostname. split.
  - unfold re.match_, fqdn_validate. cbn [re.match_here andb]. intros Hm.
    apply match_repeat_elim in Hm as (pre & post & -> & Hall & Hlo & Hhi & Hk).
    apply andb_prop in Hk as [Hend _].
    rewrite (str_forallb_ext _ _ _ fqdn_set) in Hall.
    assert (hostname_chars pre && negb (String.eqb pre "") = true) as Hname.
    { unfold hostname_chars. rewrite Hall. destruct pre; [simpl in Hlo; lia|done]. }
    apply at_end_iff in Hend as [-> | ->].
    + left. by rewrite str_app_nil_r.
    + right. by exists pre.
  - intros [Hs|(s' & -> & Hs)].
    + rewrite fqdn_validate_hostname_chars; [done|].
      apply andb_prop in Hs as [Hall _].
      apply (ends_with_newline_forallb hostname_char);
        [apply hostname_char_not_newline | done].
    + apply andb_prop in Hs as [Hall Hne].
      unfold re.match_, fqdn_validate. cbn [re.match_here andb].
      apply match_repeat_intro.
      * by rewrite (str_forallb_ext _ _ _ fqdn_set).
      * destruct s'; [done | simpl; lia].
      * done.
      * by destruct s'.
Qed.

(** X8: the username setter accepts exactly the login names of the
    pattern and the same names followed by one newline: the name goes
    into the [users] directive as given, and a login name proper is
    read back by the [username] property; every other string raises
    and nothing is recorded. *)
Theorem set_username_accepted (d : LibvirtDomain) (s : string) :
  (with_optional_newline login_name s ->
     exists d' items,
       set_username d s = Return d'
       /\ user_data d' !! "users" = Some (PList [PDict items])
       /\ dict_get "name" items = Some (PStr s)
       /\ (login_name s = true -> username d' = Some s))
  /\ (~ with_optional_newline login_name s ->
        set_username d s = Raise (Exception "Invalid username: " s)).
Proof.
  split.
  - intros Hs%username_pattern_matches. unfold set_username. rewrite Hs.
    do 2 eexists. split; [reflexivity|]. split_and!.
    + unfold record_metadata, set_dom, set_user_data.
      cbn [user_data]. apply lookup_insert_eq.
    + reflexivity.
    + intros Hname. by apply get_metadata_record, login_name_xml_safe.
  - intros Hs. unfold set_username.
    destruct (re.match_ false username_pattern s) eqn:Hm; [|done].
    by apply username_pattern_matches in Hm.
Qed.

Lemma hostname_xml_safe s : hostname s = true -> xml_safe s = true.
Proof. intros [Hs _]%andb_prop. by apply hostname_chars_xml_safe. Qed.

(** X9: the fqdn setter on a value of a configuration. A string (of
    characters below code point 256) is written to the user-data
    document exactly when it is a non-empty string of ASCII letters,
    digits and dots, alone or followed by one newline, and such a string
    without the newline is read back by the [fqdn] property; any other
    string leaves the domain as it was, as do [None] and the other
    falsy values; a truthy value that is not a string raises
    [TypeError]. *)
Theorem set_fqdn_recorded (d : LibvirtDomain) (value : pyval) :
  match value with
  | PStr s =>
      (with_optional_newline hostname s ->
         exists d', set_fqdn_value d value = Return d'
                    /\ user_data d' !! "fqdn" = Some (PStr s)
                    /\ (hostname s = true -> fqdn d' = Some s))
      /\ (~ with_optional_newline hostname s ->
            set_fqdn_value d value = Return d)
  | _ =>
      set_fqdn_value d value
      = if truthy value then Raise TypeError else Return d
  end.
Proof.
  destruct value as [|b|z|s|l|items]; try done.
  split.
  - intros Hs.
    destruct (set_fqdn_accept d s) as (d' & Hret & Hdoc & Hread).
    { by apply fqdn_validate_matches. }
    { intros ->. destruct Hs as [Hs|(s' & Hs' & _)]; [done|]. by destruct s'. }
    exists d'. split_and!; try done.
    intros Hname. by apply Hread, hostname_xml_safe.
  - intros Hs. unfold set_fqdn_value, set_fqdn.
    destruct (re.match_ true fqdn_validate s) eqn:Hm;
      [by apply fqdn_validate_matches in Hm|].
    by rewrite orb_true_r.
Qed.

(** ** The capability probes *)

(** X10: [domain_type] raises exactly when no type is reported; otherwise
    it returns a reported type that sorts before all the others, so
    [kvm] whenever it is reported next to nothing but [qemu]. *)
Theorem domain_type_sorts_first (available : list string) :
  match domain_type available with
  | Return x =>
      available <> [] /\ x ∈ available
      /\ forall y, y ∈ available -> String.leb x y = true
  | Raise e =>
      available = [] /\ e = Exception "No domain type available!" ""
  end
  /\ ("kvm" ∈ available ->
      (forall y, y ∈ available -> y = "kvm" \/ y = "qemu") ->
      domain_type available = Return "kvm").
Proof.
  assert (match domain_type available with
          | Return x =>
              available <> [] /\ x ∈ available
              /\ forall y, y ∈ available -> String.leb x y = true
          | Raise e =>
              available = [] /\ e = Exception "No domain type available!" ""
          end) as Hspec.
  { unfold domain_type. destruct available as [|a rest]; [done|].
    pose proof (merge_sort_Permutation String.le (a :: rest)) as Hperm.
    pose proof (StronglySorted_merge_sort String.le (a :: rest)) as Hsorted.
    destruct (merge_sort String.le (a :: rest)) as [|x l].
    { by apply Permutation_nil_l in Hperm. }
    split; [done|]. split.
    - rewrite <- Hperm. by left.
    - intros y Hy. rewrite <- Hperm in Hy.
      apply StronglySorted_inv in Hsorted as [_ Hall].
      apply elem_of_cons in Hy as [->|Hy].
      + apply Is_true_true. exact (reflexivity (R:=String.le) x).
      + rewrite Forall_forall in Hall. apply Is_true_true.
        by apply Hall. }
  split; [exact Hspec|]. intros Hkvm Honly.
  destruct (domain_type available) as [x|e].
  - destruct Hspec as (_ & Hx & Hmin).
    destruct (Honly x Hx) as [-> | ->]; [done|].
    by specialize (Hmin "kvm" Hkvm).
  - destruct Hspec as [-> _]. by inversion Hkvm.
Qed.

Lemma find_first {A} (f : A -> bool) (l : list A) :
  match List.find f l with
  | Some x =>
      f x = true
      /\ exists pre post,
           l = (pre ++ x :: post)%list /\ Forall (fun y => f y = false) pre
  | None => Forall (fun y => f y = false) l
  end.
Proof.
  induction l as [|a l IH]; [by constructor|]. simpl.
  destruct (f a) eqn:Ha.
  - split; [done|]. exists [], l. split; [done | constructor].
  - destruct (List.find f l) as [x|].
    + destruct IH as (Hx & pre & post & -> & Hpre). split; [done|].
      exists (a :: pre), post. split; [done | by constructor].
    + by constructor.
Qed.

(** X11: [kvm_binary] returns the first of its four candidates that
    exists, and raises exactly when none does. *)
Theorem kvm_binary_first_existing (path_exists : string -> bool) :
  match kvm_binary path_exists with
  | Return i =>
      path_exists i = true
      /\ exists pre post,
           KVM_BINARIES = (pre ++ i :: post)%list
           /\ Forall (fun y => path_exists y = false) pre
  | Raise _ => Forall (fun y => path_exists y = false) KVM_BINARIES
  end.
Proof.
  unfold kvm_binary. pose proof (find_first path_exists KVM_BINARIES) as H.
  by destruct (List.find path_exists KVM_BINARIES).
Qed.

Lemma find_iso_binary_first (exe_exists : string -> string -> bool)
    (paths : list string) :
  match find_iso_binary exe_exists paths with
  | Some (i, binary) =>
      exe_exists i binary = true /\ binary ∈ ISO_BINARIES
      /\ (binary = "mkisofs" -> exe_exists i "genisoimage" = false)
      /\ exists pre post,
           paths = (pre ++ i :: post)%list
           /\ Forall (fun j => Forall (fun b => exe_exists j b = false)
                                 ISO_BINARIES) pre
  | None =>
      Forall (fun j => Forall (fun b => exe_exists j b = false) ISO_BINARIES)
        paths
  end.
Proof.
  induction paths as [|i rest IH]; [by constructor|]. simpl.
  pose proof (find_first (exe_exists i) ISO_BINARIES) as Hfind.
  unfold ISO_BINARIES in Hfind at 1. simpl in Hfind.
  destruct (exe_exists i "genisoimage") eqn:Hg.
  { split_and!; [done | by left | done |].
    exists [], rest. split; [done | constructor]. }
  destruct (exe_exists i "mkisofs") eqn:Hm.
  { split_and!; [done | by right; left | done |].
    exists [], rest. split; [done | constructor]. }
  assert (Forall (fun b => exe_exists i b = false) ISO_BINARIES) as Hnone.
  { by repeat constructor. }
  destruct (find_iso_binary exe_exists rest) as [[j b]|].
  - destruct IH as (He & Hb & Hpref & pre & post & -> & Hpre).
    split_and!; try done. exists (i :: pre), post.
    split; [done | by constructor].
  - by constructor.
Qed.

(** X12: [iso_binary] takes the directories of the search path in
    order: the executable it returns lies in the first directory that
    holds [genisoimage] or [mkisofs], and is [mkisofs] only when that
    directory has no [genisoimage]; it raises when no directory holds
    either, and [KeyError] without a search path. *)
Theorem iso_binary_directory_order (exe_exists : string -> string -> bool)
    (p : string) :
  match iso_binary exe_exists (Some p) with
  | Return (i, binary) =>
      exe_exists i binary = true /\ binary ∈ ISO_BINARIES
      /\ (binary = "mkisofs" -> exe_exists i "genisoimage" = false)
      /\ exists pre post,
           split ":" p = (pre ++ i :: post)%list
           /\ Forall (fun j => Forall (fun b => exe_exists j b = false)
                                 ISO_BINARIES) pre
  | Raise _ =>
      Forall (fun j => Forall (fun b => exe_exists j b = false) ISO_BINARIES)
        (split ":" p)
  end
  /\ iso_binary exe_exists None = Raise KeyError.
Proof.
  split; [|done]. unfold iso_binary.
  pose proof (find_iso_binary_first exe_exists (split ":" p)) as H.
  by destruct (find_iso_binary exe_exists (split ":" p)) as [[i b]|].
Qed.

(** ** Retracting and registering *)

Section NetworkFurther.

Context (v4 : string -> option IPv4Interface)
        (HOST : DnsHost) (DHCP : DhcpHost).

Lemma remove_domain_from_network_tables h domain i4 :
  ipv4 v4 domain = Return (Some i4) ->
  remove_domain_from_network v4 h domain
  = Return (set_network_obj h
              (retracted (exploded (ip i4)) (mac_addresses domain)
                 (network_obj h))).
Proof.
  intros Hip. unfold remove_domain_from_network. rewrite Hip. cbn [bind].
  rewrite delete_dns_for_ip. cbn [bind].
  rewrite delete_dhcp_for_ip. cbn [bind].
  by rewrite delete_dhcp_for_macs.
Qed.

(** X13: [remove_domain_from_network] never fails on a domain whose
    address reads back. With an address it drops exactly the DNS entries
    of the address and the DHCP entries of the address or of one of the
    domain's MAC addresses, keeping all others in their order; without
    an address it touches nothing, the entries of the domain's MAC
    addresses included. *)
Theorem remove_domain_from_network_effect
    (h : LibvirtHypervisor) (domain : LibvirtDomain)
    (i : option IPv4Interface) :
  ipv4 v4 domain = Return i ->
  remove_domain_from_network v4 h domain
  = Return match i with
           | Some i4 =>
               set_network_obj h
                 (retracted (exploded (ip i4)) (mac_addresses domain)
                    (network_obj h))
           | None => h
           end.
Proof.
  intros Hip. destruct i as [i4|].
  - by apply remove_domain_from_network_tables.
  - unfold remove_domain_from_network. by rewrite Hip.
Qed.

Lemma filter_all {A} (P : A -> Prop) `{!forall x, Decision (P x)} (l : list A) :
  Forall P l -> filter P l = l.
Proof.
  induction 1 as [|x l Hx _ IH]; [done|].
  by rewrite filter_cons_True, IH.
Qed.

Lemma filter_idemp {A} (P : A -> Prop) `{!forall x, Decision (P x)} (l : list A) :
  filter P (filter P l) = filter P l.
Proof. by apply filter_filter_implied. Qed.

Lemma filter_swap {A} (P Q : A -> Prop)
    `{!forall x, Decision (P x)} `{!forall x, Decision (Q x)} (l : list A) :
  filter P (filter Q l) = filter Q (filter P l).
Proof.
  induction l as [|x l IH]; [done|].
  destruct (decide (P x)), (decide (Q x));
    repeat first [rewrite filter_cons_True by done
                 |rewrite filter_cons_False by done];
    by rewrite ?IH.
Qed.

Lemma retracted_idemp ipstr macs n :
  retracted ipstr macs (retracted ipstr macs n) = retracted ipstr macs n.
Proof.
  unfold retracted. simpl. f_equal; [apply filter_idemp|].
  rewrite (filter_all (fun e => dhcp_ip e <> Some ipstr)).
  - apply filter_idemp.
  - apply Forall_forall. intros e [_ [He _]%list_elem_of_filter]%list_elem_of_filter.
    exact He.
Qed.

(** X14: retracting is idempotent: a second
    [remove_domain_from_network] finds nothing left to delete and
    returns the session unchanged. *)
Theorem remove_domain_from_network_idempotent
    (h h1 : LibvirtHypervisor) (domain : LibvirtDomain) (i4 : IPv4Interface) :
  ipv4 v4 domain = Return (Some i4) ->
  remove_domain_from_network v4 h domain = Return h1 ->
  remove_domain_from_network v4 h1 domain = Return h1.
Proof.
  intros Hip. rewrite !(remove_domain_from_network_tables _ _ i4) by done.
  intros [= <-]. cbn [network_obj set_network_obj]. f_equal.
  unfold set_network_obj. cbn. by rewrite retracted_idemp.
Qed.

Lemma add_domain_to_network_tables h domain i4 mac macs :
  ipv4 v4 domain = Return (Some i4) ->
  mac_addresses domain = mac :: macs ->
  add_domain_to_network v4 HOST DHCP h domain
  = Return (set_network_obj h
              {| dns_hosts := dns_entry_of HOST domain i4
                              :: dns_hosts (network_obj h);
                 dhcp_hosts := dhcp_entry_of DHCP mac i4
                               :: dhcp_hosts (network_obj h) |}).
Proof.
  intros Hip Hmac. unfold add_domain_to_network. by rewrite Hip, Hmac.
Qed.

(** X15: registering a domain and retracting it again leaves the tables
    as retracting alone does; when the tables held no entry of the
    domain's address or MAC addresses, the session is back as it was. *)
Theorem add_then_remove_domain
    (h : LibvirtHypervisor) (domain : LibvirtDomain)
    (i4 : IPv4Interface) (mac : string) (macs : list string) :
  ipv4 v4 domain = Return (Some i4) ->
  mac_addresses domain = mac :: macs ->
  (h1 <- add_domain_to_network v4 HOST DHCP h domain ;;
   remove_domain_from_network v4 h1 domain)
  = remove_domain_from_network v4 h domain
  /\ (dns_entries_for (exploded (ip i4)) (network_obj h) = [] ->
      dhcp_entries_for (exploded (ip i4)) (mac_addresses domain)
        (network_obj h) = [] ->
      (h1 <- add_domain_to_network v4 HOST DHCP h domain ;;
       remove_domain_from_network v4 h1 domain) = Return h).
Proof.
  intros Hip Hmac.
  assert ((h1 <- add_domain_to_network v4 HOST DHCP h domain ;;
           remove_domain_from_network v4 h1 domain)
          = remove_domain_from_network v4 h domain) as Heq.
  { rewrite (add_domain_to_network_tables h domain i4 mac macs) by done.
    cbn [bind]. rewrite !(remove_domain_from_network_tables _ _ i4) by done.
    f_equal. unfold set_network_obj, retracted.
    cbn [network_obj conn_domains _last_free_ipv4 gateway dns network
         dns_hosts dhcp_hosts].
    rewrite Hmac.
    rewrite (filter_cons_False _ (dns_entry_of HOST domain i4))
      by (intros Hn; by apply Hn).
    rewrite (filter_cons_False _ (dhcp_entry_of DHCP mac i4))
      by (intros Hn; by apply Hn).
    done. }
  split; [exact Heq|]. intros Hdns Hdhcp. rewrite Heq.
  rewrite (remove_domain_from_network_tables _ _ i4) by done.
  f_equal. destruct h as [doms last [dns0 dhcp0] gw dn net].
  unfold set_network_obj, retracted, dns_entries_for, dhcp_entries_for in *.
  cbn [network_obj dns_hosts dhcp_hosts conn_domains _last_free_ipv4
       gateway dns network] in *.
  f_equal. f_equal.
  - apply filter_all. apply Forall_forall. intros e He Heq'.
    assert (e ∈ filter (fun e => dns_ip e = Some (exploded (ip i4))) dns0) as Hin
      by by apply list_elem_of_filter.
    rewrite Hdns in Hin. by inversion Hin.
  - rewrite list_filter_filter. apply filter_all. apply Forall_forall.
    intros e He.
    assert (e ∉ filter (fun e => dhcp_ip e = Some (exploded (ip i4))
                                 \/ dhcp_mac e ∈ Some <$> mac_addresses domain)
                  dhcp0) as Hnot.
    { rewrite Hdhcp. by inversion 1. }
    split; intros Hc; apply Hnot; apply list_elem_of_filter; tauto.
Qed.

(** X16: the retract-then-register tail of [start] fails exactly when
    the domain cannot be registered: [AttributeError] without an
    address, [IndexError] with an address but no network interface, and
    the error of [ipaddress] when the stored address does not parse. *)
Theorem start_network_errors (h : LibvirtHypervisor) (domain : LibvirtDomain) :
  start_network v4 HOST DHCP h domain
  = match ipv4 v4 domain with
    | Raise e => Raise e
    | Return None => Raise AttributeError
    | Return (Some i4) =>
        match mac_addresses domain with
        | [] => Raise IndexError
        | mac :: macs =>
            Return (set_network_obj h
              {| dns_hosts :=
                   dns_entry_of HOST domain i4
                   :: dns_hosts (retracted (exploded (ip i4)) (mac :: macs)
                                   (network_obj h));
                 dhcp_hosts :=
                   dhcp_entry_of DHCP mac i4
                   :: dhcp_hosts (retracted (exploded (ip i4)) (mac :: macs)
                                    (network_obj h)) |})
        end
    end.
Proof.
  destruct (ipv4 v4 domain) as [[i4|]|e] eqn:Hip.
  - destruct (mac_addresses domain) as [|mac macs] eqn:Hmac.
    + unfold start_network.
      rewrite (remove_domain_from_network_tables _ _ i4) by done. cbn [bind].
      unfold add_domain_to_network. by rewrite Hip, Hmac.
    + by rewrite (start_network_tables v4 HOST DHCP h domain i4 mac macs).
  - unfold start_network, remove_domain_from_network. rewrite Hip. cbn [bind].
    unfold add_domain_to_network. by rewrite Hip.
  - unfold start_network, remove_domain_from_network. by rewrite Hip.
Qed.

End NetworkFurther.

(** ** Disks of a domain *)

Lemma attachDisk_targets d volume device disk_type nm d' :
  attachDisk d volume device disk_type = Return (nm, d') ->
  target_dev <$> vir_disks (dom d')
  = ((target_dev <$> vir_disks (dom d)) ++ [nm])%list.
Proof.
  unfold attachDisk. intros H.
  destruct (disk_bus d device) as [bus|]; [|done]. cbn [bind] in H.
  destruct (getNextBlckDevice d) as [[nm1 d1]|] eqn:Hnext; [|done].
  cbn [bind fst snd] in H. injection H as <- <-.
  assert (dom d1 = dom d) as Hdom.
  { unfold getNextBlckDevice in Hnext.
    destruct (pop _) as [[c b]|]; [|done]. cbn [bind] in Hnext.
    injection Hnext as _ <-. by destruct (blockdev d). }
  cbn [set_dom dom attach_disk_device vir_disks]. rewrite Hdom.
  by rewrite fmap_app.
Qed.

Lemma attach_all_targets reqs : forall d,
  target_dev <$> vir_disks (dom (snd (attach_all d reqs)))
  = ((target_dev <$> vir_disks (dom d))
     ++ returned_names (fst (attach_all d reqs)))%list.
Proof.
  induction reqs as [|[[volume device] disk_type] rest IH]; intros d.
  { simpl. by rewrite app_nil_r. }
  simpl. destruct (attachDisk d volume device disk_type) as [[nm d1]|e] eqn:Ha.
  - simpl. rewrite IH, (attachDisk_targets _ _ _ _ _ _ Ha).
    by rewrite <- app_assoc.
  - simpl. apply IH.
Qed.

(** X17: after any sequence of [attachDisk] calls on a fresh wrapper of a
    domain without disks, the targets of the domain's disks are the
    names the calls returned, in call order: one disk per call that
    returned, and no two disks on the same target. *)
Theorem attachDisk_targets_distinct (d : LibvirtDomain)
    (reqs : list (string * string * string)) :
  blockdev d = None -> vir_disks (dom d) = [] ->
  let r := attach_all d reqs in
  target_dev <$> vir_disks (dom (snd r)) = returned_names (fst r)
  /\ NoDup (target_dev <$> vir_disks (dom (snd r))).
Proof.
  intros Hfresh Hdisks r.
  assert (target_dev <$> vir_disks (dom (snd r)) = returned_names (fst r))
    as Heq.
  { subst r. by rewrite attach_all_targets, Hdisks. }
  split; [exact Heq|]. rewrite Heq.
  destruct (attach_all_names reqs 0%nat d) as [m Hm]; [by left|].
  subst r. rewrite Hm, drop_0.
  assert (NoDup device_names) as Hnd.
  { apply (bool_decide_unpack _). vm_compute. exact I. }
  rewrite <- (take_drop m device_names) in Hnd.
  by apply NoDup_app in Hnd as [? _].
Qed.

(** ** The network document in general *)

Section DocumentFurther.

Context (v4 : string -> option IPv4Interface) (uuid4 : nat -> string).

Lemma additional_networks_from_spec l : forall i nets,
  additional_networks_from v4 uuid4 i l = Return nets ->
  length nets = length (filter (fun o => str_truthy o = true) l)
  /\ Forall (fun net =>
               exists j, (i <= j < i + length l)%nat
                         /\ entry_field "link" net = Some (interface_id (j + 1)))
       nets.
Proof.
  induction l as [|o l IH]; intros i nets H.
  { injection H as <-. split; [done | constructor]. }
  simpl in H. destruct (str_truthy o) eqn:Ho.
  - rewrite filter_cons_True by done. simpl in H.
    assert (forall net nets',
              entry_field "link" net = Some (interface_id (i + 1)) ->
              additional_networks_from v4 uuid4 (S i) l = Return nets' ->
              length (net :: nets') = S (length (filter (fun o => str_truthy o = true) l))
              /\ Forall (fun net =>
                   exists j, (i <= j < i + length (o :: l))%nat
                     /\ entry_field "link" net = Some (interface_id (j + 1)))
                   (net :: nets')) as Hcons.
    { intros net nets' Hnet Hrest. destruct (IH _ _ Hrest) as [Hlen Hall].
      split; [simpl; by rewrite Hlen|]. constructor.
      - exists i. split; [simpl; lia | done].
      - eapply Forall_impl; [exact Hall|]. intros x (j & Hj & Hx).
        exists j. split; [simpl; lia | done]. }
    destruct (String.eqb (default "" o) "dhcp").
    + destruct (additional_networks_from v4 uuid4 (S i) l) as [nets'|] eqn:Hrest;
        [|done]. simpl in H. injection H as <-. by apply Hcons.
    + destruct (v4 _) as [domain_ip|]; [|done].
      destruct (additional_networks_from v4 uuid4 (S i) l) as [nets'|] eqn:Hrest;
        [|done]. simpl in H. injection H as <-. by apply Hcons.
  - rewrite filter_cons_False by (by rewrite Ho). simpl in H.
    destruct (IH _ _ H) as [Hlen Hall]. split; [done|].
    eapply Forall_impl; [exact Hall|]. intros x (j & Hj & Hx).
    exists j. split; [simpl; lia | done].
Qed.

Lemma links_of_lookup (macs : list string) (j : nat) :
  (j < length macs)%nat ->
  exists link, link ∈ links_of macs /\ entry_field "id" link = Some (interface_id j).
Proof.
  intros Hj. destruct (lookup_lt_is_Some_2 macs j Hj) as [m Hm].
  exists (PDict [("id", PStr ("interface" +:+ str_of_nat j));
                 ("type", PStr "phy");
                 ("ethernet_mac_address", PStr m)]).
  split; [|reflexivity].
  apply list_elem_of_lookup. exists j. unfold links_of.
  by rewrite list_lookup_imap, Hm.
Qed.

(** X18: a document that [generate_openstack_network_config] returns has
    one link per MAC address and one network entry for the primary
    address plus one per additional address that is set; when the
    domain has an interface for every additional slot, each network
    entry names one of the links. *)
Theorem generate_openstack_network_config_shape
    (h : LibvirtHypervisor) (domain : LibvirtDomain) (doc : pyval) :
  generate_openstack_network_config v4 uuid4 h domain = Return doc ->
  length (doc_list "links" doc) = length (mac_addresses domain)
  /\ length (doc_list "networks" doc)
     = S (length (filter (fun o => str_truthy o = true)
                    (additional_ipv4 domain)))
  /\ ((length (additional_ipv4 domain) < length (mac_addresses domain))%nat ->
      forall net, net ∈ doc_list "networks" doc ->
        exists link, link ∈ doc_list "links" doc
                     /\ entry_field "link" net = entry_field "id" link).
Proof.
  unfold generate_openstack_network_config. intros H.
  destruct (additional_networks_from v4 uuid4 0 (additional_ipv4 domain))
    as [nets|] eqn:Hadd; [|done]. cbn [bind] in H.
  destruct (ipv4 v4 domain) as [[i4|]|]; [|done..]. cbn [bind] in H.
  injection H as <-. apply additional_networks_from_spec in Hadd as [Hlen Hall].
  split_and!.
  - apply links_of_length.
  - cbn. by rewrite Hlen.
  - intros Hmacs net Hnet. cbn in Hnet.
    apply elem_of_cons in Hnet as [->|Hnet].
    + destruct (links_of_lookup (mac_addresses domain) 0%nat) as (link & ? & Hid);
        [lia|]. exists link. split; [done|]. by rewrite Hid.
    + rewrite Forall_forall in Hall. destruct (Hall net Hnet) as (j & Hj & Hlink).
      destruct (links_of_lookup (mac_addresses domain) (j + 1)%nat)
        as (link & ? & Hid); [lia|].
      exists link. split; [done|]. by rewrite Hlink, Hid.
Qed.

Lemma additional_networks_from_malformed l : forall i s,
  Some s ∈ l -> s <> "" -> s <> "dhcp" ->
  v4 (if negb (str_contains "/" s) then s +:+ "/24" else s) = None ->
  additional_networks_from v4 uuid4 i l = Raise ValueError.
Proof.
  assert (forall l i e, additional_networks_from v4 uuid4 i l = Raise e ->
                        e = ValueError) as Honly.
  { clear. intros l. induction l as [|o l IH]; intros i e; [done|]. simpl.
    destruct (negb (str_truthy o)); [apply IH|].
    destruct (String.eqb (default "" o) "dhcp").
    - destruct (additional_networks_from v4 uuid4 (S i) l) eqn:Hrest; [done|].
      simpl. intros [= <-]. by eapply IH.
    - destruct (v4 _); [|by intros [= <-]].
      destruct (additional_networks_from v4 uuid4 (S i) l) eqn:Hrest; [done|].
      simpl. intros [= <-]. by eapply IH. }
  induction l as [|o l IH]; intros i s Hs Hne Hdhcp Hparse; [by inversion Hs|].
  apply elem_of_cons in Hs as [<-|Hs].
  - simpl. destruct (String.eqb_spec s ""); [done|]. simpl.
    destruct (String.eqb_spec s "dhcp"); [done|]. by rewrite Hparse.
  - destruct (additional_networks_from v4 uuid4 i (o :: l)) as [nets|e] eqn:Hr.
    + exfalso. specialize (IH (S i) s Hs Hne Hdhcp Hparse).
      simpl in Hr. rewrite IH in Hr. unfold bind in Hr.
      repeat case_match; done.
    + f_equal. by eapply Honly.
Qed.

(** X19: [generate_openstack_network_config] fails with [ValueError] when
    an additional address that is neither empty nor ["dhcp"] does not
    parse (after [/24] is appended to one without a prefix), and with
    [AttributeError] when the additional addresses are fine but the
    domain has no primary address. *)
Theorem generate_openstack_network_config_errors
    (h : LibvirtHypervisor) (domain : LibvirtDomain) :
  (forall s,
     Some s ∈ additional_ipv4 domain -> s <> "" -> s <> "dhcp" ->
     v4 (if negb (str_contains "/" s) then s +:+ "/24" else s) = None ->
     generate_openstack_network_config v4 uuid4 h domain = Raise ValueError)
  /\ (returns (additional_networks_from v4 uuid4 0 (additional_ipv4 domain))
      = true ->
      ipv4 v4 domain = Return None ->
      generate_openstack_network_config v4 uuid4 h domain = Raise AttributeError).
Proof.
  split.
  - intros s Hs Hne Hdhcp Hparse. unfold generate_openstack_network_config.
    by rewrite (additional_networks_from_malformed _ 0%nat s).
  - intros Hadd Hip. unfold generate_openstack_network_config.
    destruct (additional_networks_from v4 uuid4 0 (additional_ipv4 domain));
      [|done]. cbn [bind]. by rewrite Hip.
Qed.

End DocumentFurther.

(** ** Successive allocations *)

(** X20: in a session on a network that lies within the IPv4 range, two
    successive calls of [get_free_ipv4] that both return an address
    return strictly increasing addresses, whatever the domains record
    in between: no address is handed out twice. *)
Theorem get_free_ipv4_strictly_increasing
    (v4 : string -> option IPv4Interface) (v6 : string -> option IPv6Interface)
    (h h1 h2 : LibvirtHypervisor) (i j : IPv4Interface) :
  0 <= network_address (network h) ->
  network_address (network h) + num_addresses (network h) <= 2 ^ 32 ->
  get_free_ipv4 v4 v6 h = Return (Some i, h1) ->
  get_free_ipv4 v4 v6 h1 = Return (Some j, h2) ->
  ip i < ip j.
Proof.
  intros HB Htop H1 H2. unfold get_free_ipv4 in H1, H2.
  destruct (collect_used_ips v4 v6 [V4 (gateway h)] (list_domains h))
    as [used|]; simpl in H1; [|discriminate].
  destruct (scan_network _ used _) as [i'|] eqn:Hscan1; [|discriminate].
  injection H1 as -> <-.
  destruct (collect_used_ips v4 v6 _ (list_domains (set_last_free_ipv4 h i)))
    as [used2|]; simpl in H2; [|discriminate].
  destruct (scan_network _ used2 _) as [j'|] eqn:Hscan2; [|discriminate].
  injection H2 as -> _.
  apply scan_network_sound in Hscan1 as (Hin1 & Hp1 & _).
  apply scan_network_sound in Hscan2 as (Hin2 & Hp2 & _ & Hcur & _).
  specialize (Hcur i eq_refl).
  unfold iter in Hin1, Hin2. apply elem_of_seqZ in Hin1, Hin2.
  rewrite interface_ge_24 in Hcur by (first [done | lia]).
  apply negb_false_iff, Z.ltb_lt in Hcur. exact Hcur.
Qed.

(** * The further statements at sample values *)

Lemma get_free_ipv4_first_fit_witness :
  let h := Sample.session in
  let v4 := Sample.IPv4Interface_of_str in
  let v6 := Sample.IPv6Interface_of_str in
  get_free_ipv4 v4 v6 h = Return (Some Sample.i6, set_last_free_ipv4 h Sample.i6)
  /\ exists used pre post,
       collect_used_ips v4 v6 [V4 (gateway h)] (list_domains h) = Return used
       /\ iter (network h) = (pre ++ ip Sample.i6 :: post)%list
       /\ Forall (skipped (_last_free_ipv4 h) used) pre
       /\ ~ skipped (_last_free_ipv4 h) used (ip Sample.i6).
Proof.
  intros h v4 v6.
  assert (get_free_ipv4 v4 v6 h
          = Return (Some Sample.i6, set_last_free_ipv4 h Sample.i6)) as H
    by (vm_compute; reflexivity).
  split; [exact H|].
  exact (proj2 (proj2 (get_free_ipv4_first_fit v4 v6 h _ Sample.i6 H))).
Defined.

Lemma get_free_ipv4_no_wraparound_witness :
  let h := MoreSamples.spent_session in
  get_free_ipv4 Sample.IPv4Interface_of_str Sample.IPv6Interface_of_str h
  = Return (None, h).
Proof.
  intros h.
  apply (get_free_ipv4_no_wraparound Sample.IPv4Interface_of_str
           Sample.IPv6Interface_of_str h
           {| ip := addr 192 0 2 255; prefixlen := 24 |}).
  - vm_compute. discriminate.
  - vm_compute. discriminate.
  - reflexivity.
  - reflexivity.
  - split; [vm_compute; discriminate | vm_compute; reflexivity].
  - vm_compute. reflexivity.
Defined.

Lemma get_free_ipv4_malformed_metadata_witness :
  get_free_ipv4 Sample.IPv4Interface_of_str Sample.IPv6Interface_of_str
    MoreSamples.broken_session
  = Raise ValueError.
Proof.
  apply (get_free_ipv4_malformed_metadata Sample.IPv4Interface_of_str
           Sample.IPv6Interface_of_str MoreSamples.broken_session
           (Sample.vm "x" {["ipv4" := "n/a"]} []) "n/a");
    [right; left | reflexivity | discriminate | reflexivity | reflexivity].
Defined.

Lemma groups_set_groups_witness :
  groups (set_groups Sample.fedora ["wheel"; "docker"]) = ["wheel"; "docker"]
  /\ groups (set_groups Sample.fedora [""]) = [].
Proof.
  apply (groups_set_groups Sample.fedora ["wheel"; "docker"]).
  - repeat constructor.
  - repeat constructor.
  - discriminate.
Defined.

Lemma load_ssh_key_file_set_username_commute_witness :
  let d := Sample.fedora in
  let rd := MoreSamples.read_file in
  exists d',
    (d1 <- load_ssh_key_file rd d "~/.ssh/id_rsa.pub" ;; set_username d1 "alice")
    = Return d'
    /\ (d2 <- set_username d "alice" ;; load_ssh_key_file rd d2 "~/.ssh/id_rsa.pub")
       = Return d'
    /\ ssh_key d' = Some "ssh-rsa AAAA me@host".
Proof.
  intros d rd.
  destruct (load_ssh_key_file_set_username_commute rd d "~/.ssh/id_rsa.pub"
              "ssh-rsa AAAA me@host" "alice")
    as (d' & H1 & H2 & Hk & _); [reflexivity | reflexivity | reflexivity |].
  exists d'. split; [exact H1|]. split; [exact H2 | exact Hk].
Defined.

Lemma remove_domain_from_network_effect_witness :
  let v4 := Sample.IPv4Interface_of_str in
  remove_domain_from_network v4 Sample.stale_session Sample.two_nics
  = Return (set_network_obj Sample.stale_session
      {| dns_hosts := [{| dns_ip := Some "192.0.2.7"; hostnames := ["c"] |}];
         dhcp_hosts :=
           [{| dhcp_mac := Some "52:54:00:00:00:07"; dhcp_name := None;
               dhcp_ip := Some "192.0.2.7" |}] |})
  /\ remove_domain_from_network v4 Sample.stale_session MoreSamples.untagged
     = Return Sample.stale_session.
Proof.
  intros v4. split.
  - assert (ipv4 v4 Sample.two_nics = Return (Some Sample.i5)) as Hip
      by (vm_compute; reflexivity).
    rewrite (remove_domain_from_network_effect v4 Sample.stale_session
               Sample.two_nics (Some Sample.i5) Hip).
    vm_compute. reflexivity.
  - exact (remove_domain_from_network_effect v4 Sample.stale_session
             MoreSamples.untagged None eq_refl).
Defined.

Lemma remove_domain_from_network_idempotent_witness :
  let v4 := Sample.IPv4Interface_of_str in
  let h1 := match remove_domain_from_network v4 Sample.stale_session
                    Sample.two_nics with
            | Return x => x
            | Raise _ => Sample.stale_session
            end in
  remove_domain_from_network v4 Sample.stale_session Sample.two_nics = Return h1
  /\ remove_domain_from_network v4 h1 Sample.two_nics = Return h1.
Proof.
  intros v4 h1.
  assert (ipv4 v4 Sample.two_nics = Return (Some Sample.i5)) as Hip
    by (vm_compute; reflexivity).
  assert (remove_domain_from_network v4 Sample.stale_session Sample.two_nics
          = Return h1) as H by (vm_compute; reflexivity).
  split; [exact H|].
  exact (remove_domain_from_network_idempotent v4 Sample.stale_session h1
           Sample.two_nics Sample.i5 Hip H).
Defined.

Lemma add_then_remove_domain_witness :
  let v4 := Sample.IPv4Interface_of_str in
  let h := Sample.session in
  (h1 <- add_domain_to_network v4 Sample.HOST Sample.DHCP h Sample.two_nics ;;
   remove_domain_from_network v4 h1 Sample.two_nics) = Return h.
Proof.
  intros v4 h.
  assert (ipv4 v4 Sample.two_nics = Return (Some Sample.i5)) as Hip
    by (vm_compute; reflexivity).
  exact (proj2 (add_then_remove_domain v4 Sample.HOST Sample.DHCP h
                  Sample.two_nics Sample.i5 "52:54:00:00:00:05"
                  ["52:54:00:00:00:15"] Hip eq_refl) eq_refl eq_refl).
Defined.

Lemma attachDisk_targets_distinct_witness :
  let r := attach_all Sample.fedora Sample.seed_then_root in
  target_dev <$> vir_disks (dom (snd r)) = ["vda"; "vdb"]
  /\ NoDup (target_dev <$> vir_disks (dom (snd r))).
Proof.
  intros r.
  destruct (attachDisk_targets_distinct Sample.fedora Sample.seed_then_root
              eq_refl eq_refl) as [Heq Hnd].
  split; [|exact Hnd]. fold r in Heq. rewrite Heq. reflexivity.
Defined.

Lemma generate_openstack_network_config_shape_witness :
  let v4 := Sample.IPv4Interface_of_str in
  let d := MoreSamples.three_nics in
  exists doc,
    generate_openstack_network_config v4 (fun _ => "") Sample.session d
    = Return doc
    /\ length (doc_list "links" doc) = 3%nat
    /\ length (doc_list "networks" doc) = 2%nat
    /\ forall net, net ∈ doc_list "networks" doc ->
         exists link, link ∈ doc_list "links" doc
                      /\ entry_field "link" net = entry_field "id" link.
Proof.
  intros v4 d.
  destruct (generate_openstack_network_config v4 (fun _ => "") Sample.session d)
    as [doc|] eqn:Hdoc; [|vm_compute in Hdoc; discriminate].
  exists doc. split; [reflexivity|].
  destruct (generate_openstack_network_config_shape v4 (fun _ => "")
              Sample.session d doc Hdoc) as (Hlinks & Hnets & Hrefs).
  split; [exact Hlinks|]. split; [exact Hnets|].
  apply Hrefs. simpl. lia.
Defined.

Lemma get_free_ipv4_strictly_increasing_witness :
  let v4 := Sample.IPv4Interface_of_str in
  let v6 := Sample.IPv6Interface_of_str in
  let h := Sample.session in
  let h1 := set_last_free_ipv4 h Sample.i6 in
  let i8 := {| ip := addr 192 0 2 8; prefixlen := 24 |} in
  get_free_ipv4 v4 v6 h = Return (Some Sample.i6, h1)
  /\ get_free_ipv4 v4 v6 h1 = Return (Some i8, set_last_free_ipv4 h1 i8)
  /\ ip Sample.i6 < ip i8.
Proof.
  intros v4 v6 h h1 i8.
  assert (get_free_ipv4 v4 v6 h = Return (Some Sample.i6, h1)) as H1
    by (vm_compute; reflexivity).
  assert (get_free_ipv4 v4 v6 h1 = Return (Some i8, set_last_free_ipv4 h1 i8))
    as H2 by (vm_compute; reflexivity).
  split; [exact H1|]. split; [exact H2|].
  apply (get_free_ipv4_strictly_increasing v4 v6 h h1
           (set_last_free_ipv4 h1 i8) Sample.i6 i8);
    [vm_compute; discriminate | vm_compute; discriminate | exact H1 | exact H2].
Defined.

Example split_sample : split "," "a,,b" = ["a"; ""; "b"] /\ split "," "" = [""].
Proof. split; reflexivity. Qed.

Example domain_type_sample :
  domain_type ["qemu"; "kvm"] = Return "kvm"
  /\ domain_type ["kvm"; "hvf"] = Return "hvf".
Proof. split; vm_compute; reflexivity. Qed.

Example kvm_binary_sample :
  kvm_binary MoreSamples.path_exists = Return "/usr/bin/kvm".
Proof. reflexivity. Qed.

Example iso_binary_sample :
  iso_binary MoreSamples.exe_exists (Some "/usr/local/bin:/opt/bin:/usr/bin")
  = Return ("/opt/bin", "mkisofs").
Proof. vm_compute. reflexivity. Qed.
